(** * Voice assistant backend: call orchestration, booking dispatch, FAQ matching

    A shallow embedding of the two variants of the telephony voicebot
    ([main.py], the synchronous variant with in-memory sessions and an FAQ
    matcher, and the asynchronous variant with the scheduling adapter, the
    retry wrapper and the Redis slot cache), followed by the properties
    established about them.

    Conventions.
    - A Python [str] is a [string] holding its UTF-8 encoding.
    - Values produced by [json.loads] / [r.json()] are terms of [json].
    - An [async def] / [def] with effects is a function
      [World -> result A * World]: the result is either a returned value or a
      raised exception, and the world carries what the code mutates (Redis
      keys, the session dictionaries, the clock) together with the trace of
      calls made to the outside.
    - Every exchange with an outside service (speech, language model,
      scheduling provider, recording download) is answered by an oracle of the
      environment [Env]; an oracle sees the current world, so its answers may
      depend on the whole history. *)

From Stdlib Require Import ZArith QArith String Ascii List Bool Lia.
From stdpp Require Import base option list strings gmap.

Set Warnings "-register-all".
Close Scope Q_scope.
Open Scope string_scope.
Open Scope Z_scope.

(* ===================================================================== *)
(** * Python values and exceptions                                        *)
(* ===================================================================== *)

(** The exception classes the modelled code can raise. [ClientError] stands
    for any failure of an outside call (network error, provider error); its
    code only tells failures apart. *)
Inductive exn : Type :=
| ValueError
| IndexError
| KeyError
| TypeError
| AttributeError
| ClientError (code : Z).

Inductive result (A : Type) : Type :=
| Ok (a : A)
| Raise (e : exn).
Arguments Ok {A} a.
Arguments Raise {A} e.

(** A function that returns the value [a] returns [Some a] where falling
    off its end returns [None]. *)
Definition some_result {A : Type} (r : result A) : result (option A) :=
  match r with
  | Ok a => Ok (Some a)
  | Raise e => Raise e
  end.

(** JSON documents as Python sees them after decoding. An object is kept as
    its list of members, whose keys are distinct as in a [dict]; non-finite
    floats are not represented. *)
Inductive json : Type :=
| JNull
| JBool (b : bool)
| JInt (z : Z)
| JFloat (q : Q)
| JStr (s : string)
| JArr (items : list json)
| JObj (members : list (string * json)).

Fixpoint assoc {A : Type} (k : string) (l : list (string * A)) : option A :=
  match l with
  | [] => None
  | (k', v) :: l' => if String.eqb k k' then Some v else assoc k l'
  end.

(** [d.get(key, default)]: only a dict has the method. *)
Definition py_get (d : json) (key : string) (dflt : json) : result json :=
  match d with
  | JObj ms => Ok (default dflt (assoc key ms))
  | _ => Raise AttributeError
  end.

(** Python truthiness, as used by [if x:] and [x or y]. *)
Definition truthy (v : json) : bool :=
  match v with
  | JNull => false
  | JBool b => b
  | JInt z => negb (Z.eqb z 0)
  | JFloat q => negb (Qeq_bool q 0)
  | JStr s => negb (String.eqb s "")
  | JArr l => match l with [] => false | _ => true end
  | JObj l => match l with [] => false | _ => true end
  end.

(* ===================================================================== *)
(** * Python string operations                                            *)
(* ===================================================================== *)

Definition bytes (l : list nat) : string :=
  string_of_list_ascii (map ascii_of_nat l).

(** The characters for which [str.isspace] holds, as UTF-8 byte sequences:
    U+0009..U+000D, U+001C..U+0020, U+0085, U+00A0, U+1680, U+2000..U+200A,
    U+2028, U+2029, U+202F, U+205F, U+3000. *)
Definition ws_tokens : list string :=
  concat
    [ map (fun n => bytes [n]) [9; 10; 11; 12; 13; 28; 29; 30; 31; 32];
      [bytes [194; 133]; bytes [194; 160]; bytes [225; 154; 128]];
      map (fun n => bytes [226; 128; n])
        [128; 129; 130; 131; 132; 133; 134; 135; 136; 137; 138; 168; 169; 175];
      [bytes [226; 129; 159]; bytes [227; 128; 128]] ]%nat.

(** Length of the first token of [toks] that starts [s] (0 when none does).
    The tokens are never empty. *)
Fixpoint token_len (toks : list string) (s : string) : nat :=
  match toks with
  | [] => 0%nat
  | t :: toks' => if String.prefix t s then String.length t else token_len toks' s
  end.

(** Drop leading tokens; [skip] counts the bytes of the current token still
    to be dropped. *)
Fixpoint lstrip_tokens (toks : list string) (skip : nat) (s : string) : string :=
  match s with
  | EmptyString => EmptyString
  | String c s' =>
      match skip with
      | S k => lstrip_tokens toks k s'
      | O =>
          match token_len toks s with
          | O => s
          | S k => lstrip_tokens toks k s'
          end
      end
  end.

Definition strip_tokens (toks : list string) (s : string) : string :=
  String.rev (lstrip_tokens (map String.rev toks) 0 (String.rev (lstrip_tokens toks 0 s))).

(** [s.strip()] *)
Definition py_strip (s : string) : string := strip_tokens ws_tokens s.

(** [s.strip(chars)] for ASCII [chars], given as one-character strings. *)
Definition py_strip_chars (chars : list string) (s : string) : string :=
  strip_tokens chars s.

(** [s.replace(old, "")] for a non-empty [old]: every occurrence found
    scanning left to right is dropped. *)
Fixpoint remove_all (old : string) (skip : nat) (s : string) : string :=
  match s with
  | EmptyString => EmptyString
  | String c s' =>
      match skip with
      | S k => remove_all old k s'
      | O =>
          if String.prefix old s
          then remove_all old (String.length old - 1) s'
          else String c (remove_all old 0 s')
      end
  end.

Definition py_replace_empty (old s : string) : string := remove_all old 0 s.

(** [s.startswith(p)] *)
Definition py_startswith (p s : string) : bool := String.prefix p s.

Definition digit_val (c : ascii) : option Z :=
  let n := nat_of_ascii c in
  if ((48 <=? n) && (n <=? 57))%nat then Some (Z.of_nat n - 48) else None.

Definition byte_val (c : ascii) : Z := Z.of_nat (nat_of_ascii c).

(** The payload of a UTF-8 continuation byte. *)
Definition cont (c : ascii) : option Z :=
  let b := byte_val c in
  if (128 <=? b) && (b <? 192) then Some (b - 128) else None.

(** A decoded code point, refused when a shorter encoding exists. *)
Definition at_least (lo cp : Z) : Z := if lo <=? cp then cp else -1.

(** The code points of a UTF-8 text. A [str] holds well-formed text only;
    a byte sequence that is not UTF-8 is read as the code point -1, which
    no character has, and ends the decoding. *)
Fixpoint code_points (s : string) : list Z :=
  match s with
  | EmptyString => []
  | String a s1 =>
      let b0 := byte_val a in
      if b0 <? 128 then b0 :: code_points s1
      else if (192 <=? b0) && (b0 <? 224) then
        match s1 with
        | String b s2 =>
            match cont b with
            | Some x => at_least 128 ((b0 - 192) * 64 + x) :: code_points s2
            | None => [-1]
            end
        | _ => [-1]
        end
      else if (224 <=? b0) && (b0 <? 240) then
        match s1 with
        | String b (String c s3) =>
            match cont b, cont c with
            | Some x, Some y =>
                at_least 2048 ((b0 - 224) * 4096 + x * 64 + y) :: code_points s3
            | _, _ => [-1]
            end
        | _ => [-1]
        end
      else if (240 <=? b0) && (b0 <? 248) then
        match s1 with
        | String b (String c (String d s4)) =>
            match cont b, cont c, cont d with
            | Some x, Some y, Some z =>
                at_least 65536 ((b0 - 240) * 262144 + x * 4096 + y * 64 + z)
                :: code_points s4
            | _, _, _ => [-1]
            end
        | _ => [-1]
        end
      else [-1]
  end.

(** The code point of the digit zero of every decimal script of Unicode
    14.0, the character database of CPython 3.11; the digits one to nine of
    a script follow its zero. *)
Definition decimal_zeros : list Z :=
  [ 48; 1632; 1776; 1984; 2406; 2534; 2662; 2790; 2918; 3046;
    3174; 3302; 3430; 3558; 3664; 3792; 3872; 4160; 4240; 6112;
    6160; 6470; 6608; 6784; 6800; 6992; 7088; 7232; 7248; 42528;
    43216; 43264; 43472; 43504; 43600; 44016; 65296; 66720; 68912; 69734;
    69872; 69942; 70096; 70384; 70736; 70864; 71248; 71360; 71472; 71904;
    72016; 72784; 73040; 73120; 92768; 92864; 93008; 120782; 120792; 120802;
    120812; 120822; 123200; 123632; 125264; 130032 ].

(** The value of a decimal digit of any script ([Py_UNICODE_TODECIMAL]). *)
Definition decimal_value (cp : Z) : option Z :=
  match List.find (fun z => (z <=? cp) && (cp <? z + 10)) decimal_zeros with
  | Some z => Some (cp - z)
  | None => None
  end.

(** The characters [int] skips around a literal, as UTF-8 byte sequences:
    those of [str.isspace] but U+001C..U+001F. [int] turns the Unicode
    spaces above U+007F into blanks and then skips what C's [isspace]
    accepts, U+0009..U+000D and U+0020; the four separators U+001C..U+001F
    stay in the text and make it invalid. *)
Definition int_ws_tokens : list string :=
  concat
    [ map (fun n => bytes [n]) [9; 10; 11; 12; 13; 32];
      [bytes [194; 133]; bytes [194; 160]; bytes [225; 154; 128]];
      map (fun n => bytes [226; 128; n])
        [128; 129; 130; 131; 132; 133; 134; 135; 136; 137; 138; 168; 169; 175];
      [bytes [226; 129; 159]; bytes [227; 128; 128]] ]%nat.

(** The interpreter's default limit on the number of digits of a text
    converted to an [int] ([sys.get_int_max_str_digits()]). *)
Definition int_max_str_digits : Z := 4300.

(** The digit part of a decimal literal, over its code points: digits of
    any script, with single underscores allowed between two digits.
    [count] is the number of digits read so far (underscores are not
    counted, leading zeros are) and [prev] says whether the previous
    character was a digit. A literal of more than [int_max_str_digits]
    digits is refused. *)
Fixpoint int_digits (acc count : Z) (prev : bool) (cps : list Z) : option Z :=
  match cps with
  | [] => if (prev && (count <=? int_max_str_digits))%bool then Some acc else None
  | c :: cps' =>
      match decimal_value c with
      | Some d => int_digits (10 * acc + d) (count + 1) true cps'
      | None =>
          if (Z.eqb c 95 && prev)%bool then int_digits acc count false cps' else None
      end
  end.

(** [int(s)] for a [str] in base 10, as CPython 3.11 reads it: surrounding
    whitespace is skipped, a sign may come first, then the digits; [None]
    is [ValueError]. *)
Definition py_int (s : string) : option Z :=
  match code_points (strip_tokens int_ws_tokens s) with
  | [] => None
  | c :: ds =>
      if Z.eqb c 43 then int_digits 0 0 false ds
      else if Z.eqb c 45 then Z.opp <$> int_digits 0 0 false ds
      else int_digits 0 0 false (c :: ds)
  end.

(** Texts made of ASCII digits only, and the number such a text denotes
    (continuing from [acc]). *)
Fixpoint all_digits (s : string) : bool :=
  match s with
  | EmptyString => true
  | String c s' => match digit_val c with Some _ => all_digits s' | None => false end
  end.

Fixpoint dec_value (acc : Z) (s : string) : Z :=
  match s with
  | EmptyString => acc
  | String c s' => dec_value (10 * acc + default 0 (digit_val c)) s'
  end.

Definition starts_nondigit (t : string) : bool :=
  match t with
  | EmptyString => false
  | String a _ => match digit_val a with Some _ => false | None => true end
  end.

(** Number of characters of a UTF-8 string: the bytes that are not
    continuation bytes. *)
Fixpoint utf8_len (s : string) : nat :=
  match s with
  | EmptyString => 0%nat
  | String c s' =>
      let n := nat_of_ascii c in
      ((if ((128 <=? n) && (n <? 192))%bool then 0 else 1) + utf8_len s')%nat
  end.

(** [len(v)]: defined on strings, lists and dicts. *)
Definition py_len (v : json) : result Z :=
  match v with
  | JArr l => Ok (Z.of_nat (length l))
  | JStr s => Ok (Z.of_nat (utf8_len s))
  | JObj ms => Ok (Z.of_nat (length ms))
  | _ => Raise TypeError
  end.

(** [l[i]] on a Python list, negative indices counting from the end. *)
Definition list_index {A : Type} (l : list A) (i : Z) : option A :=
  let n := Z.of_nat (length l) in
  if (0 <=? i) && (i <? n) then l !! Z.to_nat i
  else if (- n <=? i) && (i <? 0) then l !! Z.to_nat (n + i)
  else None.

(** [v[i]] for an integer [i]. Indexing a string yields a one-character
    string, which the callers below never inspect: it is returned as
    [JNull]. A dict decoded from JSON has no integer key. *)
Definition py_index (v : json) (i : Z) : result json :=
  match v with
  | JArr l => match list_index l i with Some x => Ok x | None => Raise IndexError end
  | JStr s =>
      let n := Z.of_nat (utf8_len s) in
      if (- n <=? i) && (i <? n) then Ok JNull else Raise IndexError
  | JObj _ => Raise KeyError
  | _ => Raise TypeError
  end.

(* ===================================================================== *)
(** * Effects: a state and exception monad                                *)
(* ===================================================================== *)

Definition M (W A : Type) : Type := W -> result A * W.

Definition ret {W A : Type} (a : A) : M W A := fun w => (Ok a, w).

Definition raise {W A : Type} (e : exn) : M W A := fun w => (Raise e, w).

(** Sequencing: an exception skips the rest, the world keeps what was
    done before it. *)
Definition bind {W A B : Type} (c : M W A) (k : A -> M W B) : M W B :=
  fun w =>
    match c w with
    | (Ok a, w') => k a w'
    | (Raise e, w') => (Raise e, w')
    end.

(** Lift a pure computation that may raise. *)
Definition lift {W A : Type} (r : result A) : M W A := fun w => (r, w).

Declare Scope py_scope.
Delimit Scope py_scope with py.
Notation "x <- c ;; k" := (bind c (fun x => k))
  (at level 100, c at next level, right associativity) : py_scope.
Notation "c ;;; k" := (bind c (fun _ => k))
  (at level 100, right associativity) : py_scope.
Open Scope py_scope.

(** Booking request handed to the scheduling provider by [create_record];
    the provider's [datetime] field is the local-time rendering of
    [ts_unix]. *)
Record BookingRequest : Type := {
  phone : string;
  fullname : string;
  service_id : string;
  staff_id : string;
  ts_unix : Z;
  api_id : option string
}.

(** Calls to the outside, in the order they were made. *)
Inductive Event : Type :=
| EvSleep (seconds : Z)
| EvDownload (url : string)
| EvSTT (audio : string)
| EvChat (messages : list (string * string))
| EvGetSlots (service staff : Z)
| EvCreateRecord (req : BookingRequest)
| EvTTS (text : json).

(** The booking requests among the calls made. *)
Fixpoint booking_requests (tr : list Event) : list BookingRequest :=
  match tr with
  | [] => []
  | EvCreateRecord req :: tr' => req :: booking_requests tr'
  | _ :: tr' => booking_requests tr'
  end.


(** The message lists sent to the language model among the calls made. *)
Fixpoint chat_calls (tr : list Event) : list (list (string * string)) :=
  match tr with
  | [] => []
  | EvChat messages :: tr' => messages :: chat_calls tr'
  | _ :: tr' => chat_calls tr'
  end.

(** Monadic left fold: a [for] loop that threads an accumulator and stops
    at the first exception. *)
Fixpoint foldM {W A B : Type} (f : A -> B -> M W A) (acc : A) (l : list B) : M W A :=
  match l with
  | [] => ret acc
  | x :: l' => acc' <- f acc x ;; foldM f acc' l'
  end.

(** [range(n)] *)
Definition py_range (n : Z) : list Z := map Z.of_nat (seq 0 (Z.to_nat n)).

(* ===================================================================== *)
(** * The asynchronous variant: scheduling adapter, retry, slot cache     *)
(* ===================================================================== *)

Module Bot.

(** What the handler mutates: the Redis keys (a value and the time at which
    it expires), the clock in seconds, and the calls made so far. Redis
    itself is taken to answer every command. *)
Record World : Type := {
  redis : gmap string (string * Z);
  clock : Z;
  trace : list Event
}.

(** Configuration read from the environment at start-up, the two functions
    of the [json] module, and the outside services. [json_loads] answers
    [None] where [json.loads] raises. [book_times] is the whole exchange of
    one [get_slots] attempt up to [times.get("data", [])]; [records] the
    whole exchange of one [create_record] attempt (authorisation
    included). *)
Record Env : Type := {
  YCLIENTS_SERVICE_IDS : list string;
  YCLIENTS_STAFF_IDS : list string;
  PROMPT : string;
  json_loads : string -> option json;
  json_dumps : json -> string;
  http_get : World -> string -> result string;
  stt_recognize : World -> string -> result string;
  chat_completion : World -> list (string * string) -> result string;
  book_times : World -> Z -> Z -> result (list json);
  records : World -> BookingRequest -> result json;
  tts_synthesize : World -> json -> result string
}.

Definition log (ev : Event) (w : World) : World :=
  {| redis := redis w; clock := clock w; trace := trace w ++ [ev] |}.

(** One exchange with an outside service: the oracle answers from the
    world as it stands, and the call is recorded. *)
Definition call {A : Type} (ev : Event) (oracle : World -> result A) : M World A :=
  fun w => (oracle w, log ev w).

(** The world after [await asyncio.sleep(d)]. *)
Definition slept (d : Z) (w : World) : World :=
  {| redis := redis w; clock := clock w + Z.max 0 d; trace := trace w ++ [EvSleep d] |}.

Definition sleep (d : Z) : M World unit := fun w => (Ok tt, slept d w).

(** [time.time()], truncated to seconds. *)
Definition time_now : M World Z := fun w => (Ok (clock w), w).

(** What [GET key] answers in [w]: an expired key is gone. *)
Definition redis_lookup (key : string) (w : World) : option string :=
  match redis w !! key with
  | Some (v, expires) => if clock w <? expires then Some v else None
  | None => None
  end.

(** [await redis.get(key)] *)
Definition redis_get (key : string) : M World (option string) :=
  fun w => (Ok (redis_lookup key w), w).

(** [await redis.set(key, value, ex=ttl)] *)
Definition redis_set (key value : string) (ttl : Z) : M World unit :=
  fun w => (Ok tt, {| redis := <[key := (value, clock w + ttl)]> (redis w);
                      clock := clock w; trace := trace w |}).

(** Time passing between two requests. *)
Definition elapse (seconds : Z) (w : World) : World :=
  {| redis := redis w; clock := clock w + seconds; trace := trace w |}.

(** [await redis.delete(key)] *)
Definition redis_delete (key : string) : M World unit :=
  fun w => (Ok tt, {| redis := delete key (redis w);
                      clock := clock w; trace := trace w |}).

(** The body of [retry_request]'s [for i in range(retries)] loop, over the
    indices still to run. Falling out of the loop returns [None]. *)
Fixpoint retry_loop {A : Type} (fn : M World A) (retries delay : Z) (indices : list Z)
  : M World (option A) :=
  match indices with
  | [] => ret None
  | i :: rest =>
      fun w =>
        match fn w with
        | (Ok a, w') => (Ok (Some a), w')
        | (Raise e, w') =>
            if i <? retries - 1
            then (sleep (delay * 2 ^ i) ;;; retry_loop fn retries delay rest) w'
            else (Raise e, w')
        end
  end.

Definition retry_request {A : Type} (fn : M World A) (retries delay : Z)
  : M World (option A) :=
  retry_loop fn retries delay (py_range retries).

(** The retry contract as the specification words it: attempt [i], counted
    from 1, is preceded for [i > 1] by a delay of [baseDelay * 2^(i-2)]; a
    result ends the attempts; when none is left the last error is raised.
    [last] is the error of the previous attempt; the contract speaks of at
    least one attempt, and [withRetry] starts from an error that is never
    raised then. *)
Fixpoint withRetry_from {A : Type} (operation : M World A) (baseDelay : Z)
    (i : Z) (attempts_left : nat) (last : exn) : M World A :=
  match attempts_left with
  | O => raise last
  | S k =>
      (if 1 <? i then sleep (baseDelay * 2 ^ (i - 2)) else ret tt) ;;;
      fun w =>
        match operation w with
        | (Ok a, w') => (Ok a, w')
        | (Raise e, w') => withRetry_from operation baseDelay (i + 1) k e w'
        end
  end.

Definition withRetry {A : Type} (operation : M World A) (maxAttempts baseDelay : Z)
  : M World A :=
  withRetry_from operation baseDelay 1 (Z.to_nat maxAttempts) ValueError.

Section WithEnv.

Context (env : Env).

(** [YClientsAdapter.get_slots]: [_do] keeps the first three times. *)
Definition get_slots_do (service staff : Z) : M World (list json) :=
  slots <- call (EvGetSlots service staff) (fun w => book_times env w service staff) ;;
  ret (take 3 slots).

Definition get_slots (service staff : Z) : M World (option (list json)) :=
  retry_request (get_slots_do service staff) 3 1.

(** [YClientsAdapter.create_record] *)
Definition create_record_do (req : BookingRequest) : M World json :=
  call (EvCreateRecord req) (fun w => records env w req).

Definition create_record (req : BookingRequest) : M World (option json) :=
  retry_request (create_record_do req) 3 1.

Definition yandex_stt (audio : string) : M World string :=
  call (EvSTT audio) (fun w => stt_recognize env w audio).

Definition yandex_tts (text : json) : M World string :=
  call (EvTTS text) (fun w => tts_synthesize env w text).

(** The directive used when the model's output is not JSON. *)
Definition fallback_directive (content : string) : json :=
  JObj [("act", JStr "say"); ("text", JStr content); ("hints", JArr [])].

Definition ask_gpt (caller text : string) : M World json :=
  let messages := [("system", PROMPT env); ("user", text)] in
  raw <- call (EvChat messages) (fun w => chat_completion env w messages) ;;
  let content := py_strip raw in
  ret (match json_loads env content with
       | Some data => data
       | None => fallback_directive content
       end).

(** The webhook's JSON body, read with [data.get]. *)
Record Request : Type := {
  event : option string;
  callerid : option string;
  call_id : option string;
  recording_url : option string
}.

(** The three shapes of the handler's answer: [{"status": "cleared"}],
    [{"playback_url": ..., "text": ...}] and [{"status": "ok"}]. *)
Inductive Response : Type :=
| Cleared
| Spoken (playback_url : string) (text : json)
| StatusOk.

(** [f"call:{call_id}:<suffix>"]; an absent call id prints as [None]. *)
Definition call_key (cid : option string) (suffix : string) : string :=
  "call:" +:+ default "None" cid +:+ ":" +:+ suffix.

Definition clarify_phrase : string := "Извините, я не расслышал. Повторите, пожалуйста.".
Definition slots_phrase : string := "Вот ближайшие доступные слоты: ".
Definition default_label : string := "время".
Definition guest_name : string := "Гость".
Definition success_phrase : string := "Запись успешно создана!".
Definition failure_phrase : string := "Не удалось создать запись.".
Definition goodbye_phrase : string := "Спасибо за звонок! До свидания.".

(** [int(s)] on a configured id or on the index text. *)
Definition to_int (s : string) : result Z :=
  match py_int s with
  | Some z => Ok z
  | None => Raise ValueError
  end.

(** One step of the [show_slots] double loop:
    [slots_all.extend(await yclients.get_slots(int(sid), int(stf)))]. *)
Definition query_pair (slots_all : list json) (p : string * string) : M World (list json) :=
  sid <- lift (to_int (fst p)) ;;
  stf <- lift (to_int (snd p)) ;;
  r <- get_slots sid stf ;;
  match r with
  | Some slots => ret (slots_all ++ slots)%list
  | None => raise TypeError
  end.

Definition as_str (v : json) : result string :=
  match v with
  | JStr s => Ok s
  | _ => Raise TypeError
  end.

Fixpoint mapR {A B : Type} (f : A -> result B) (l : list A) : result (list B) :=
  match l with
  | [] => Ok []
  | x :: l' =>
      match f x with
      | Raise e => Raise e
      | Ok y => match mapR f l' with
                | Raise e => Raise e
                | Ok ys => Ok (y :: ys)
                end
      end
  end.

(** [", ".join([s.get("time", "время") for s in slots])]: the list is built
    first, then joined. *)
Definition join_labels (slots : list json) : result string :=
  match mapR (fun s => py_get s "time" (JStr default_label)) slots with
  | Raise e => Raise e
  | Ok labels =>
      match mapR as_str labels with
      | Raise e => Raise e
      | Ok strs => Ok (String.concat ", " strs)
      end
  end.

Definition show_slots (cid : option string) : M World json :=
  slots_all <- foldM query_pair []
                 (list_prod (YCLIENTS_SERVICE_IDS env) (YCLIENTS_STAFF_IDS env)) ;;
  redis_set (call_key cid "slots") (json_dumps env (JArr slots_all)) 3600 ;;;
  labels <- lift (join_labels (take 3 slots_all)) ;;
  ret (JStr (slots_phrase +:+ labels)).

(** [int(act.replace("book", "").strip("()") or 0)] *)
Definition book_index (act : string) : result Z :=
  let s := py_strip_chars ["("; ")"] (py_replace_empty "book" act) in
  if String.eqb s "" then Ok 0 else to_int s.

(** [slots[idx] if idx < len(slots) else slots[0]] *)
Definition choose (slots : json) (idx : Z) : result json :=
  match py_len slots with
  | Raise e => Raise e
  | Ok n => if idx <? n then py_index slots idx else py_index slots 0
  end.

(** [l[0]] on a configured list. *)
Definition first_id (l : list string) : result string :=
  match l with
  | x :: _ => Ok x
  | [] => Raise IndexError
  end.

(** The arguments of the [create_record] call of the [book] branch, at
    time [t]. *)
Definition booking_request (caller : string) (cid : option string) (sid stf : string) (t : Z)
  : BookingRequest :=
  {| phone := caller; fullname := guest_name; service_id := sid; staff_id := stf;
     ts_unix := t + 3600; api_id := cid |}.

(** The reply chosen from [result.get("success")]. *)
Definition booking_reply (r : option json) : result json :=
  match r with
  | None => Raise AttributeError
  | Some res =>
      match py_get res "success" JNull with
      | Raise e => Raise e
      | Ok success => Ok (JStr (if truthy success then success_phrase else failure_phrase))
      end
  end.

(** The [create_record] call of the [book] branch and the reply drawn from
    its result. *)
Definition submit_booking (caller : string) (cid : option string) : M World json :=
  sid <- lift (first_id (YCLIENTS_SERVICE_IDS env)) ;;
  stf <- lift (first_id (YCLIENTS_STAFF_IDS env)) ;;
  t <- time_now ;;
  r <- create_record (booking_request caller cid sid stf t) ;;
  lift (booking_reply r).

(** The [book] branch; [reply_text] is the directive's own text, kept when
    nothing is cached. *)
Definition book (caller : string) (cid : option string) (act : string) (reply_text : json)
  : M World json :=
  slots_raw <- redis_get (call_key cid "slots") ;;
  match slots_raw with
  | None => ret reply_text
  | Some raw =>
      if String.eqb raw "" then ret reply_text
      else
        slots <- lift (match json_loads env raw with
                       | Some v => Ok v
                       | None => Raise ValueError
                       end) ;;
        idx <- lift (book_index act) ;;
        choice <- lift (choose slots idx) ;;
        submit_booking caller cid
  end.

(** The [# === HANDLE ACTIONS ===] chain: from the decoded directive to the
    text to speak. *)
Definition handle_actions (caller : string) (cid : option string) (gpt_reply : json)
  : M World json :=
  act <- lift (py_get gpt_reply "act" (JStr "say")) ;;
  reply_text <- lift (py_get gpt_reply "text" (JStr "")) ;;
  match act with
  | JStr a =>
      if String.eqb a "show_slots" then show_slots cid
      else if py_startswith "book" a then book caller cid a reply_text
      else if String.eqb a "goodbye" then ret (JStr goodbye_phrase)
      else ret reply_text
  | _ => raise AttributeError
  end.

Definition speak (reply_text : json) : M World Response :=
  playback_url <- yandex_tts reply_text ;;
  ret (Spoken playback_url reply_text).

Definition webhook (data : Request) : M World Response :=
  let caller := default "unknown" (callerid data) in
  let cid := call_id data in
  if bool_decide (event data = Some "End") then
    redis_delete (call_key cid "stage") ;;;
    redis_delete (call_key cid "intent") ;;;
    redis_delete (call_key cid "slots") ;;;
    ret Cleared
  else
    match recording_url data with
    | Some url =>
        if bool_decide (event data = Some "SpeechCaptured") && negb (String.eqb url "") then
          audio <- call (EvDownload url) (fun w => http_get env w url) ;;
          user_text <- yandex_stt audio ;;
          if String.eqb user_text "" then speak (JStr clarify_phrase)
          else
            gpt_reply <- ask_gpt caller user_text ;;
            reply_text <- handle_actions caller cid gpt_reply ;;
            speak reply_text
        else ret StatusOk
    | None => ret StatusOk
    end.

(** The handler's run up to intent resolution: the request is a captured
    utterance with a recording, the download and the recognition succeed
    with a non-empty text, and [ask_gpt] returns [gpt_reply], leaving the
    world [w']. *)
Definition resolves (data : Request) (w : World) (gpt_reply : json) (w' : World) : Prop :=
  event data = Some "SpeechCaptured" /\
  exists url audio user_text w1 w2,
    recording_url data = Some url /\ url <> "" /\
    call (EvDownload url) (fun w0 => http_get env w0 url) w = (Ok audio, w1) /\
    yandex_stt audio w1 = (Ok user_text, w2) /\ user_text <> "" /\
    ask_gpt (default "unknown" (callerid data)) user_text w2 = (Ok gpt_reply, w').

(** The outcome of [speak reply_text] at [w]: the answer of the speech
    synthesis decides between a spoken response and a handler failure. *)
Definition spoken (reply_text : json) (w : World) : result Response * World :=
  (match tts_synthesize env w reply_text with
   | Ok playback_url => Ok (Spoken playback_url reply_text)
   | Raise e => Raise e
   end, log (EvTTS reply_text) w).

End WithEnv.

End Bot.

(* ===================================================================== *)
(** * The synchronous variant: sessions, FAQ matcher (main.py)            *)
(* ===================================================================== *)

Module Main.

(** The module-level dictionaries [SESSIONS] (a [defaultdict(list)] of
    role/content turns) and [LAST_ACTIVITY], the clock and the calls made
    so far. *)
Record World : Type := {
  SESSIONS : gmap string (list (string * string));
  LAST_ACTIVITY : gmap string Z;
  clock : Z;
  trace : list Event
}.

Definition SESSION_TTL : Z := 300.

(** The files read at start-up ([FAQ] as question/answer pairs), the
    library functions the matcher relies on, and the outside services.
    [ratio a b], [quick_ratio a b] and [real_quick_ratio a b] are the three
    scores of [difflib.SequenceMatcher] for [seq1 = a], [seq2 = b]; scores
    and cutoffs are rationals. *)
Record Env : Type := {
  PROMPT : string;
  FAQ : list (string * string);
  str_lower : string -> string;
  ratio : string -> string -> Q;
  quick_ratio : string -> string -> Q;
  real_quick_ratio : string -> string -> Q;
  http_get : World -> string -> result string;
  stt_recognize : World -> string -> result string;
  chat_completion : World -> list (string * string) -> result string;
  tts_synthesize : World -> json -> result string
}.

Definition log (ev : Event) (w : World) : World :=
  {| SESSIONS := SESSIONS w; LAST_ACTIVITY := LAST_ACTIVITY w;
     clock := clock w; trace := trace w ++ [ev] |}.

Definition call {A : Type} (ev : Event) (oracle : World -> result A) : M World A :=
  fun w => (oracle w, log ev w).

(** [SESSIONS[caller]] read through the [defaultdict]: a missing key is
    created with an empty list. *)
Definition session_of (caller : string) (w : World) : list (string * string) :=
  default [] (SESSIONS w !! caller).

Definition update_session (caller role content : string) : M World unit :=
  fun w =>
    (Ok tt,
     {| SESSIONS := <[caller := (session_of caller w ++ [(role, content)])%list]> (SESSIONS w);
        LAST_ACTIVITY := <[caller := clock w]> (LAST_ACTIVITY w);
        clock := clock w; trace := trace w |}).

Definition clear_session (caller : string) : M World unit :=
  fun w =>
    (Ok tt,
     {| SESSIONS := delete caller (SESSIONS w);
        LAST_ACTIVITY := delete caller (LAST_ACTIVITY w);
        clock := clock w; trace := trace w |}).

(** [SESSIONS[caller]] as an expression. *)
Definition read_session (caller : string) : M World (list (string * string)) :=
  fun w =>
    (Ok (session_of caller w),
     {| SESSIONS := <[caller := session_of caller w]> (SESSIONS w);
        LAST_ACTIVITY := LAST_ACTIVITY w; clock := clock w; trace := trace w |}).

(** Time passing between two requests. *)
Definition elapse (seconds : Z) (w : World) : World :=
  {| SESSIONS := SESSIONS w; LAST_ACTIVITY := LAST_ACTIVITY w;
     clock := clock w + seconds; trace := trace w |}.

Section WithEnv.

Context (env : Env).

(** The test of [difflib.get_close_matches] on one candidate [x]. *)
Definition close_enough (cutoff : Q) (word x : string) : bool :=
  Qle_bool cutoff (real_quick_ratio env x word)
  && Qle_bool cutoff (quick_ratio env x word)
  && Qle_bool cutoff (ratio env x word).

(** The [(score, x)] pairs kept, in the order of the candidates. *)
Definition scored (cutoff : Q) (word : string) (possibilities : list string)
  : list (Q * string) :=
  map (fun x => (ratio env x word, x)) (List.filter (close_enough cutoff word) possibilities).

(** Python's order on [(float, str)] tuples. *)
Definition tuple_gt (a b : Q * string) : bool :=
  match Qcompare (fst a) (fst b) with
  | Gt => true
  | Lt => false
  | Eq => String.ltb (snd b) (snd a)
  end.

(** [max]: the first of the largest elements. *)
Fixpoint py_max (best : Q * string) (l : list (Q * string)) : Q * string :=
  match l with
  | [] => best
  | x :: l' => py_max (if tuple_gt x best then x else best) l'
  end.

(** [heapq.nlargest(1, l)] *)
Definition nlargest1 (l : list (Q * string)) : list (Q * string) :=
  match l with
  | [] => []
  | x :: l' => [py_max x l']
  end.

(** [difflib.get_close_matches(word, possibilities, n=1, cutoff=cutoff)] of
    the standard library. *)
Definition get_close_matches (word : string) (possibilities : list string) (cutoff : Q)
  : result (list string) :=
  if Qle_bool 0 cutoff && Qle_bool cutoff 1
  then Ok (map snd (nlargest1 (scored cutoff word possibilities)))
  else Raise ValueError.

(** The [for q in FAQ] loop of [find_faq_answer]. *)
Fixpoint first_answer (m : string) (faq : list (string * string)) : option string :=
  match faq with
  | [] => None
  | (question, answer) :: rest =>
      if String.eqb (str_lower env question) m then Some answer else first_answer m rest
  end.

Definition find_faq_answer (user_text : string) (cutoff : Q) : result (option string) :=
  let user_norm := str_lower env user_text in
  let questions := map (fun q => str_lower env (fst q)) (FAQ env) in
  match get_close_matches user_norm questions cutoff with
  | Raise e => Raise e
  | Ok [] => Ok None
  | Ok (m :: _) => Ok (first_answer m (FAQ env))
  end.

Definition default_cutoff : Q := 6 # 10.

(** What the matcher's contract takes from [difflib.SequenceMatcher]: a
    text compared with itself gets the full score from each of the three
    ratios, no ratio exceeds 1, and only equal texts reach 1. *)
Definition difflib_scores : Prop :=
  (forall s, ratio env s s == 1)%Q
  /\ (forall s, 1 <= quick_ratio env s s)%Q
  /\ (forall s, 1 <= real_quick_ratio env s s)%Q
  /\ (forall a b, ratio env a b <= 1)%Q
  /\ (forall a b, ratio env a b == 1 -> a = b)%Q.

Definition yandex_stt (audio : string) : M World string :=
  call (EvSTT audio) (fun w => stt_recognize env w audio).

Definition yandex_tts (text : string) : M World string :=
  call (EvTTS (JStr text)) (fun w => tts_synthesize env w (JStr text)).

Definition ask_gpt (caller user_text : string) : M World string :=
  update_session caller "user" user_text ;;;
  history <- read_session caller ;;
  let messages := (("system", PROMPT env) :: history) in
  answer <- call (EvChat messages) (fun w => chat_completion env w messages) ;;
  update_session caller "assistant" answer ;;;
  ret (py_strip answer).

Record Request : Type := {
  event : option string;
  callerid : option string;
  recording_url : option string
}.

Inductive Response : Type :=
| Cleared
| Spoken (playback_url : string) (text : string)
| StatusOk.

Definition clarify_phrase : string := "Извините, я не расслышал. Повторите, пожалуйста.".

(** The choice of the reply once speech was recognised. *)
Definition reply_for (caller user_text : string) : M World string :=
  if String.eqb user_text "" then ret clarify_phrase
  else
    faq_answer <- lift (find_faq_answer user_text default_cutoff) ;;
    match faq_answer with
    | Some answer =>
        if String.eqb answer "" then ask_gpt caller user_text else ret answer
    | None => ask_gpt caller user_text
    end.

Definition webhook (data : Request) : M World Response :=
  let caller := default "unknown" (callerid data) in
  if bool_decide (event data = Some "End") then
    clear_session caller ;;; ret Cleared
  else
    match recording_url data with
    | Some url =>
        if String.eqb url "" then ret StatusOk
        else
          audio <- call (EvDownload url) (fun w => http_get env w url) ;;
          user_text <- yandex_stt audio ;;
          reply_text <- reply_for caller user_text ;;
          playback_url <- yandex_tts reply_text ;;
          ret (Spoken playback_url reply_text)
    | None => ret StatusOk
    end.

(** The handler's run up to speech recognition: the request is not a call
    end, it carries a recording, and the download and the recognition
    succeed with [user_text], leaving the world [w']. *)
Definition hears (data : Request) (w : World) (user_text : string) (w' : World) : Prop :=
  event data <> Some "End" /\
  exists url audio w1,
    recording_url data = Some url /\ url <> "" /\
    call (EvDownload url) (fun w0 => http_get env w0 url) w = (Ok audio, w1) /\
    yandex_stt audio w1 = (Ok user_text, w').

(** The outcome of the synthesis step for [reply_text] at [w]. *)
Definition spoken (reply_text : string) (w : World) : result Response * World :=
  (match tts_synthesize env w (JStr reply_text) with
   | Ok playback_url => Ok (Spoken playback_url reply_text)
   | Raise e => Raise e
   end, log (EvTTS (JStr reply_text)) w).

End WithEnv.

End Main.

(* ===================================================================== *)
(** * The scheduling adapter's authorisation                              *)
(* ===================================================================== *)

Module Adapter.

(** The adapter object: [self.user_token] ([None] at construction) and the
    number of authorisation requests sent so far. *)
Record World : Type := {
  user_token : json;
  auth_requests : nat
}.

(** [YCLIENTS_PARTNER_TOKEN] as read from the environment, and the decoded
    answers of the provider to the authorisation request. *)
Record Env : Type := {
  partner_token : option string;
  auth : World -> result json
}.

(** The [Authorization] header, [f"Bearer {user_token}, User
    {partner_token}"], kept as the two values it prints. *)
Record Headers : Type := {
  bearer : json;
  user : option string
}.

Definition initial : World := {| user_token := JNull; auth_requests := 0 |}.

Section WithEnv.

Context (env : Env).

(** The POST of [authorize] and the decoding of its answer. *)
Definition post_auth : M World json :=
  fun w => (auth env w,
            {| user_token := user_token w; auth_requests := S (auth_requests w) |}).

Definition set_token (tok : json) : M World unit :=
  fun w => (Ok tt, {| user_token := tok; auth_requests := auth_requests w |}).

(** [self.user_token = js.get("data", {}).get("user_token")] *)
Definition authorize : M World unit :=
  js <- post_auth ;;
  data <- lift (py_get js "data" (JObj [])) ;;
  tok <- lift (py_get data "user_token" JNull) ;;
  set_token tok.

Definition read_headers : M World Headers :=
  fun w => (Ok {| bearer := user_token w; user := partner_token env |}, w).

(** [_headers]: authorise first when no token is held. *)
Definition headers : M World Headers :=
  fun w =>
    if truthy (user_token w) then read_headers w
    else (authorize ;;; read_headers) w.

End WithEnv.

End Adapter.

(* ===================================================================== *)
(** * Concrete environments for the examples                              *)
(* ===================================================================== *)

Module Scenario.

Definition dq : string := bytes [34]%nat.

Definition quoted (s : string) : string := dq +:+ s +:+ dq.

(** The text of a JSON object whose members are strings without escapes,
    and the value it decodes to. *)
Definition obj_text (fields : list (string * string)) : string :=
  "{" +:+ String.concat ", "
            (map (fun kv => quoted (fst kv) +:+ ": " +:+ quoted (snd kv)) fields) +:+ "}".

Definition obj_json (fields : list (string * string)) : json :=
  JObj (map (fun kv => (fst kv, JStr (snd kv))) fields).

Definition arr_text (objs : list (list (string * string))) : string :=
  "[" +:+ String.concat ", " (map obj_text objs) +:+ "]".

Definition arr_json (objs : list (list (string * string))) : json :=
  JArr (map obj_json objs).

(** [json.loads] restricted to the documents of an example: a listed text
    decodes to its value, any other text is taken not to be JSON. *)
Definition loads_of (docs : list (string * json)) (s : string) : option json :=
  assoc s docs.

Definition caller_id : string := "79991234567".
Definition the_call : string := "call-1".
Definition recording : string := "https://vox.example/rec.mp3".
Definition playback : string := "http://localhost:8000/static/1000.mp3".

(** Three offered times as [show_slots] caches them. *)
Definition three_slots : list (list (string * string)) :=
  [ [("time", "10:00"); ("datetime", "2030-05-01T10:00:00+03:00")];
    [("time", "10:30"); ("datetime", "2030-05-01T10:30:00+03:00")];
    [("time", "11:00"); ("datetime", "2030-05-01T11:00:00+03:00")] ].

(** An environment of the asynchronous variant: the model answers
    [model_output] to every prompt, the provider answers [times] to every
    slot query and [record_answer] to every booking, recognition hears
    [heard], synthesis succeeds. *)
Definition bot_env (heard model_output : string) (docs : list (string * json))
    (times : result (list json)) (record_answer : result json) : Bot.Env :=
  {| Bot.YCLIENTS_SERVICE_IDS := ["11"; "12"];
     Bot.YCLIENTS_STAFF_IDS := ["7"];
     Bot.PROMPT := "prompt";
     Bot.json_loads := loads_of docs;
     Bot.json_dumps := fun _ => "[]";
     Bot.http_get := fun _ _ => Ok "mp3";
     Bot.stt_recognize := fun _ _ => Ok heard;
     Bot.chat_completion := fun _ _ => Ok model_output;
     Bot.book_times := fun _ _ _ => times;
     Bot.records := fun _ _ => record_answer;
     Bot.tts_synthesize := fun _ _ => Ok playback |}.

(** A world at second 1000 whose only Redis key, when [cache] is given, is
    the slot cache of [the_call], valid until second 4000. *)
Definition bot_world (cache : option string) : Bot.World :=
  {| Bot.redis := match cache with
                  | Some raw => {[ Bot.call_key (Some the_call) "slots" := (raw, 4000) ]}
                  | None => ∅
                  end;
     Bot.clock := 1000;
     Bot.trace := [] |}.

Definition speech : Bot.Request :=
  {| Bot.event := Some "SpeechCaptured"; Bot.callerid := Some caller_id;
     Bot.call_id := Some the_call; Bot.recording_url := Some recording |}.

(** The environment in which the model answers with the directive
    [fields] and the decoder also knows the cache text of [cached]. *)
Definition directive_env (fields : list (string * string))
    (cached : list (list (string * string)))
    (times : result (list json)) (record_answer : result json) : Bot.Env :=
  bot_env "запишите меня" (obj_text fields)
    [(obj_text fields, obj_json fields); (arr_text cached, arr_json cached)]
    times record_answer.

(** An operation that fails until the clock reaches second 3 and answers
    the time from then on. *)
Definition flaky : M Bot.World Z :=
  fun w => if Bot.clock w <? 3 then (Raise (ClientError (Bot.clock w)), w)
           else (Ok (Bot.clock w), w).

Definition provider_down : result (list json) := Raise (ClientError 503).

Definition accepted : result json := Ok (JObj [("success", JBool true)]).

Definition rejected : result json := Ok (JObj [("success", JBool false)]).

(** The model asks for the slots while the scheduling provider is down. *)
Definition show_slots_env : Bot.Env :=
  directive_env [("act", "show_slots"); ("text", "Сейчас посмотрю.")] three_slots
    provider_down accepted.

(** The model answers with the tag [act] and a text of its own; the cache
    text known to the decoder is that of [cached]. *)
Definition book_env (act : string) (cached : list (list (string * string)))
    (record_answer : result json) : Bot.Env :=
  directive_env [("act", act); ("text", "Записываю вас.")] cached provider_down record_answer.

(** The world whose slot cache holds [cached]. *)
Definition cached_world (cached : list (list (string * string))) : Bot.World :=
  bot_world (Some (arr_text cached)).

(** The model answers with a number where the tag should be. *)
Definition numeric_tag_text : string :=
  "{" +:+ quoted "act" +:+ ": 5, " +:+ quoted "text" +:+ ": " +:+ quoted "hi" +:+ "}".

Definition numeric_tag_env : Bot.Env :=
  bot_env "запишите меня" numeric_tag_text
    [(numeric_tag_text, JObj [("act", JInt 5); ("text", JStr "hi")])]
    provider_down accepted.

(** The model answers with plain text surrounded by blanks. *)
Definition plain_text_env : Bot.Env :=
  bot_env "здравствуйте" "  Добрый день!  " [] provider_down accepted.

(** The model answers with JSON that is not a directive. *)
Definition array_output_env : Bot.Env :=
  bot_env "здравствуйте" "[]" [("[]", JArr [])] provider_down accepted.

(** [str.lower] on ASCII text. *)
Definition lower_byte (c : ascii) : ascii :=
  let n := nat_of_ascii c in
  if ((65 <=? n) && (n <=? 90))%nat then ascii_of_nat (n + 32) else c.

Fixpoint lower_ascii (s : string) : string :=
  match s with
  | EmptyString => EmptyString
  | String c s' => String (lower_byte c) (lower_ascii s')
  end.

(** The three scores of [difflib] on the pairs the examples compare: equal
    texts score 1; every other pair is given the score 0. *)
Definition exact_ratio (a b : string) : Q := if String.eqb a b then 1%Q else 0%Q.

(** An environment of the synchronous variant with the FAQ [faq], in which
    recognition hears [heard] and the model answers [model_output]. *)
Definition main_env (faq : list (string * string)) (heard model_output : string) : Main.Env :=
  {| Main.PROMPT := "prompt";
     Main.FAQ := faq;
     Main.str_lower := lower_ascii;
     Main.ratio := exact_ratio;
     Main.quick_ratio := exact_ratio;
     Main.real_quick_ratio := exact_ratio;
     Main.http_get := fun _ _ => Ok "mp3";
     Main.stt_recognize := fun _ _ => Ok heard;
     Main.chat_completion := fun _ _ => Ok model_output;
     Main.tts_synthesize := fun _ _ => Ok playback |}.

Definition main_world : Main.World :=
  {| Main.SESSIONS := ∅; Main.LAST_ACTIVITY := ∅; Main.clock := 0; Main.trace := [] |}.

Definition main_speech : Main.Request :=
  {| Main.event := Some "SpeechCaptured"; Main.callerid := Some caller_id;
     Main.recording_url := Some recording |}.

(** Two entries whose questions differ by case only. *)
Definition twin_faq : list (string * string) :=
  [("Price?", "100 rubles"); ("price?", "200 rubles")].

Definition price_faq : list (string * string) :=
  [("Where are you?", "Main street 1"); ("Price?", "100 rubles")].

(** An entry whose answer is empty. *)
Definition blank_faq : list (string * string) := [("price?", "")].

(** The platform reports the end of [the_call]. *)
Definition hangup : Bot.Request :=
  {| Bot.event := Some "End"; Bot.callerid := Some caller_id;
     Bot.call_id := Some the_call; Bot.recording_url := None |}.

(** An event the handler has no branch for. *)
Definition ringing : Bot.Request :=
  {| Bot.event := Some "Ringing"; Bot.callerid := Some caller_id;
     Bot.call_id := Some the_call; Bot.recording_url := Some recording |}.

(** The provider offers [offered] to every slot query. *)
Definition offering_env (offered : list (list (string * string))) : Bot.Env :=
  directive_env [("act", "show_slots"); ("text", "Сейчас посмотрю.")] three_slots
    (Ok (map obj_json offered)) accepted.

Definition four_slots : list (list (string * string)) :=
  [ [("time", "10:00")]; [("seance_length", "3600")]; [("time", "11:00")];
    [("time", "11:30")] ].

(** The same environment with no service and no staff id configured. *)
Definition without_ids (env : Bot.Env) : Bot.Env :=
  {| Bot.YCLIENTS_SERVICE_IDS := [];
     Bot.YCLIENTS_STAFF_IDS := [];
     Bot.PROMPT := Bot.PROMPT env;
     Bot.json_loads := Bot.json_loads env;
     Bot.json_dumps := Bot.json_dumps env;
     Bot.http_get := Bot.http_get env;
     Bot.stt_recognize := Bot.stt_recognize env;
     Bot.chat_completion := Bot.chat_completion env;
     Bot.book_times := Bot.book_times env;
     Bot.records := Bot.records env;
     Bot.tts_synthesize := Bot.tts_synthesize env |}.

(** The booking provider is down. *)
Definition booking_down : result json := Raise (ClientError 502).

(** The platform reports the end of the caller's call. *)
Definition main_hangup : Main.Request :=
  {| Main.event := Some "End"; Main.callerid := Some caller_id;
     Main.recording_url := None |}.

(** The same recording under an event name the platform does not use. *)
Definition main_other_event : Main.Request :=
  {| Main.event := Some "Ringing"; Main.callerid := Some caller_id;
     Main.recording_url := Some recording |}.

(** The caller has spoken once before. *)
Definition talked_world : Main.World :=
  {| Main.SESSIONS := {[ caller_id := [("user", "hello"); ("assistant", "answer")] ]};
     Main.LAST_ACTIVITY := {[ caller_id := 0 ]};
     Main.clock := 50; Main.trace := [] |}.

(** The language model is down. *)
Definition model_down_env (heard : string) : Main.Env :=
  {| Main.PROMPT := "prompt";
     Main.FAQ := [];
     Main.str_lower := lower_ascii;
     Main.ratio := exact_ratio;
     Main.quick_ratio := exact_ratio;
     Main.real_quick_ratio := exact_ratio;
     Main.http_get := fun _ _ => Ok "mp3";
     Main.stt_recognize := fun _ _ => Ok heard;
     Main.chat_completion := fun _ _ => Raise (ClientError 429);
     Main.tts_synthesize := fun _ _ => Ok playback |}.

(** The provider answers every authorisation request with [answer]. *)
Definition auth_env (answer : json) : Adapter.Env :=
  {| Adapter.partner_token := Some "partner"; Adapter.auth := fun _ => Ok answer |}.

Definition granted : json :=
  JObj [("success", JBool true); ("data", JObj [("user_token", JStr "t0k3n")])].

(** The shape of a refusal: no data. *)
Definition refused : json :=
  JObj [("success", JBool false); ("data", JNull)].

Definition tokenless : json := JObj [("success", JBool false)].

(** A slot query that fails on every call. *)
Definition always_fails : M Bot.World (list json) :=
  Bot.call (EvGetSlots 11 7) (fun _ => Raise (ClientError 500)).

End Scenario.

(* ===================================================================== *)
(** * Facts about the string operations                                   *)
(* ===================================================================== *)

Lemma eqb_false_of_ne (s t : string) : s <> t -> String.eqb s t = false.
Proof. intros H. now apply String.eqb_neq. Qed.

Lemma append_empty_r (s : string) : s +:+ "" = s.
Proof.
  induction s as [|c s IH]; [reflexivity|].
  change (String c (s +:+ "") = String c s). now rewrite IH.
Qed.

Lemma rev_app_rev_app (s acc acc' : string) :
  String.rev_app (String.rev_app s acc) acc' = String.rev_app acc (s +:+ acc').
Proof.
  revert acc acc'. induction s as [|c s IH]; intros acc acc'; [reflexivity|].
  cbn. now rewrite IH.
Qed.

Lemma string_rev_involutive (s : string) : String.rev (String.rev s) = s.
Proof.
  unfold String.rev. rewrite rev_app_rev_app. cbn [String.rev_app]. apply append_empty_r.
Qed.

Lemma lstrip_tokens_none (toks : list string) (s : string) :
  token_len toks s = 0%nat -> lstrip_tokens toks 0 s = s.
Proof. intros H. destruct s as [|c s]; [reflexivity|]. cbn [lstrip_tokens]. now rewrite H. Qed.

(** A text with no whitespace at either end is left as it is by
    [strip]. *)
Lemma py_strip_verbatim (s : string) :
  token_len ws_tokens s = 0%nat ->
  token_len (map String.rev ws_tokens) (String.rev s) = 0%nat ->
  py_strip s = s.
Proof.
  intros Hl Hr. unfold py_strip, strip_tokens.
  rewrite (lstrip_tokens_none _ _ Hl), (lstrip_tokens_none _ _ Hr).
  apply string_rev_involutive.
Qed.

Lemma token_len_digit (toks : list string) (c : ascii) (s : string) (d : Z) :
  forallb starts_nondigit toks = true ->
  digit_val c = Some d ->
  token_len toks (String c s) = 0%nat.
Proof.
  intros Htoks Hc. induction toks as [|t toks IH]; [reflexivity|].
  cbn [forallb] in Htoks. apply andb_true_iff in Htoks as [Ht Htoks].
  cbn [token_len]. destruct t as [|a t]; [discriminate|].
  cbn [String.prefix]. destruct (ascii_dec a c) as [->|_].
  - cbn [starts_nondigit] in Ht. now rewrite Hc in Ht.
  - now apply IH.
Qed.

Lemma lstrip_tokens_digits (toks : list string) (s : string) :
  forallb starts_nondigit toks = true ->
  all_digits s = true ->
  lstrip_tokens toks 0 s = s.
Proof.
  intros Htoks Hs. destruct s as [|c s]; [reflexivity|].
  apply lstrip_tokens_none.
  cbn [all_digits] in Hs. destruct (digit_val c) as [d|] eqn:Hc; [|discriminate].
  now apply (token_len_digit toks c s d).
Qed.

Lemma all_digits_rev_app (s acc : string) :
  all_digits (String.rev_app s acc) = all_digits s && all_digits acc.
Proof.
  revert acc. induction s as [|c s IH]; intros acc; [reflexivity|].
  cbn [String.rev_app all_digits]. rewrite IH. cbn [all_digits].
  destruct (digit_val c); [reflexivity|]. now rewrite andb_false_r.
Qed.

Lemma all_digits_rev (s : string) : all_digits (String.rev s) = all_digits s.
Proof. unfold String.rev. rewrite all_digits_rev_app. cbn. apply andb_true_r. Qed.

Lemma rev_app_append (s1 s2 acc : string) :
  String.rev_app (s1 +:+ s2) acc = String.rev_app s2 (String.rev_app s1 acc).
Proof.
  revert acc. induction s1 as [|c s1 IH]; intros acc; [reflexivity|].
  change (String c s1 +:+ s2) with (String c (s1 +:+ s2)).
  cbn [String.rev_app]. apply IH.
Qed.

(** Stripping a set of characters that holds no digit leaves a text of
    digits as it is. *)
Lemma strip_tokens_digits (toks : list string) (s : string) :
  forallb starts_nondigit toks = true ->
  forallb starts_nondigit (map String.rev toks) = true ->
  all_digits s = true ->
  strip_tokens toks s = s.
Proof.
  intros Ht Hr Hs. unfold strip_tokens.
  rewrite (lstrip_tokens_digits toks s Ht Hs).
  rewrite (lstrip_tokens_digits _ _ Hr) by now rewrite all_digits_rev.
  apply string_rev_involutive.
Qed.

Lemma digit_val_byte (c : ascii) (d : Z) :
  digit_val c = Some d -> 48 <= byte_val c <= 57 /\ d = byte_val c - 48.
Proof.
  unfold digit_val, byte_val.
  destruct ((48 <=? nat_of_ascii c)%nat && (nat_of_ascii c <=? 57)%nat) eqn:H; [|discriminate].
  apply andb_true_iff in H as [H1 H2].
  apply Nat.leb_le in H1. apply Nat.leb_le in H2.
  intros [= <-]. lia.
Qed.

(** An ASCII digit is one byte, one code point, and has its own value
    among the decimal digits. *)
Lemma code_points_digit (c : ascii) (s : string) (d : Z) :
  digit_val c = Some d ->
  code_points (String c s) = byte_val c :: code_points s
  /\ decimal_value (byte_val c) = Some d.
Proof.
  intros H. apply digit_val_byte in H as [Hc ->]. split.
  - cbn [code_points]. cbv zeta.
    replace (byte_val c <? 128) with true by (symmetry; apply Z.ltb_lt; lia).
    reflexivity.
  - unfold decimal_value, decimal_zeros. cbn [List.find].
    replace (48 <=? byte_val c) with true by (symmetry; apply Z.leb_le; lia).
    replace (byte_val c <? 48 + 10) with true by (symmetry; apply Z.ltb_lt; lia).
    reflexivity.
Qed.

Lemma int_digits_value (s : string) :
  forall (acc count : Z) (prev : bool),
    all_digits s = true ->
    s <> "" \/ prev = true ->
    int_digits acc count prev (code_points s)
    = if count + Z.of_nat (String.length s) <=? int_max_str_digits
      then Some (dec_value acc s) else None.
Proof.
  induction s as [|c s IH]; intros acc count prev Hs Hne.
  - destruct Hne as [Hne| ->]; [now destruct Hne|].
    cbn [code_points int_digits String.length dec_value andb].
    now replace (count + Z.of_nat 0) with count by lia.
  - cbn [all_digits] in Hs.
    destruct (digit_val c) as [d|] eqn:Hd; [|discriminate].
    destruct (code_points_digit c s d Hd) as [Hcp Hdec].
    rewrite Hcp. cbn [int_digits]. rewrite Hdec.
    rewrite (IH _ _ true Hs) by now right.
    cbn [dec_value String.length]. rewrite Hd. cbn [default].
    now replace (count + 1 + Z.of_nat (String.length s))
      with (count + Z.of_nat (S (String.length s))) by lia.
Qed.

(** [int] reads a non-empty text of ASCII digits as the number it denotes,
    up to the limit on the number of digits, and refuses it beyond. *)
Lemma py_int_digits (s : string) :
  all_digits s = true -> s <> "" ->
  py_int s = if Z.of_nat (String.length s) <=? int_max_str_digits
             then Some (dec_value 0 s) else None.
Proof.
  intros Hs Hne. unfold py_int.
  rewrite (strip_tokens_digits int_ws_tokens s) by (try reflexivity; exact Hs).
  pose proof (int_digits_value s 0 0 false Hs (or_introl Hne)) as Hrun.
  destruct s as [|c s]; [now destruct Hne|].
  pose proof Hs as Hc. cbn [all_digits] in Hc.
  destruct (digit_val c) as [d|] eqn:Hd; [|discriminate].
  destruct (code_points_digit c s d Hd) as [Hcp _].
  rewrite Hcp in *.
  apply digit_val_byte in Hd as [Hb _].
  replace (Z.eqb (byte_val c) 43) with false by (symmetry; apply Z.eqb_neq; lia).
  replace (Z.eqb (byte_val c) 45) with false by (symmetry; apply Z.eqb_neq; lia).
  exact Hrun.
Qed.

Lemma remove_book_digits (s : string) :
  all_digits s = true -> remove_all "book" 0 (s +:+ ")") = s +:+ ")".
Proof.
  induction s as [|c s IH]; intros Hs; [reflexivity|].
  cbn [all_digits] in Hs. destruct (digit_val c) as [d|] eqn:Hd; [|discriminate].
  change (String c s +:+ ")") with (String c (s +:+ ")")).
  cbn [remove_all String.prefix].
  destruct (ascii_dec "b" c) as [<-|_]; [discriminate|].
  now rewrite IH.
Qed.

Lemma prefix_empty (s : string) : String.prefix "" s = true.
Proof. now destruct s. Qed.

(* ===================================================================== *)
(** * Properties of the retry wrapper                                     *)
(* ===================================================================== *)

Lemma py_range_seq (k : nat) (m : nat) :
  map Z.of_nat (seq k (S m)) = Z.of_nat k :: map Z.of_nat (seq (S k) m).
Proof. reflexivity. Qed.

(** From attempt [k+1 > 1] on, the loop of the code, entered after the
    delay owed for the failure of attempt [k], is the loop of the
    contract. *)
Lemma retry_loop_withRetry_from {A : Type} (fn : M Bot.World A) (d : Z) (m : nat) :
  forall (k : nat) (last : exn) (w : Bot.World),
    (1 <= k)%nat ->
    (Bot.sleep (d * 2 ^ (Z.of_nat k - 1)) ;;;
     Bot.retry_loop fn (Z.of_nat (k + S m)) d (map Z.of_nat (seq k (S m)))) w
    = (let (r, w') := Bot.withRetry_from fn d (Z.of_nat k + 1) (S m) last w in
       (some_result r, w')).
Proof.
  induction m as [|m IH]; intros k last w Hk.
  - cbn [seq map Bot.retry_loop Bot.withRetry_from].
    unfold bind, Bot.sleep, ret, raise.
    replace (1 <? Z.of_nat k + 1) with true by (symmetry; apply Z.ltb_lt; lia).
    replace (Z.of_nat k + 1 - 2) with (Z.of_nat k - 1) by lia.
    destruct (fn (Bot.slept (d * 2 ^ (Z.of_nat k - 1)) w)) as [[a|e] w']; [reflexivity|].
    replace (Z.of_nat k <? Z.of_nat (k + 1) - 1) with false
      by (symmetry; apply Z.ltb_ge; lia).
    reflexivity.
  - rewrite py_range_seq.
    cbn [Bot.retry_loop Bot.withRetry_from].
    unfold bind at 1. unfold Bot.sleep at 1.
    unfold bind at 2. unfold Bot.sleep at 2.
    replace (1 <? Z.of_nat k + 1) with true by (symmetry; apply Z.ltb_lt; lia).
    replace (Z.of_nat k + 1 - 2) with (Z.of_nat k - 1) by lia.
    destruct (fn (Bot.slept (d * 2 ^ (Z.of_nat k - 1)) w)) as [[a|e] w']; [reflexivity|].
    replace (Z.of_nat k <? Z.of_nat (k + S (S m)) - 1) with true
      by (symmetry; apply Z.ltb_lt; lia).
    specialize (IH (S k) e w' ltac:(lia)).
    replace (Z.of_nat (S k) - 1) with (Z.of_nat k) in IH by lia.
    replace (S k + S m)%nat with (k + S (S m))%nat in IH by lia.
    replace (Z.of_nat (S k) + 1) with (Z.of_nat k + 1 + 1) in IH by lia.
    exact IH.
Qed.

(** [retry_request] implements the retry contract for every positive
    number of attempts and every base delay. *)
Lemma retry_request_refines_withRetry {A : Type} (fn : M Bot.World A)
    (retries delay : Z) (w : Bot.World) :
  1 <= retries ->
  Bot.retry_request fn retries delay w
  = (let (r, w') := Bot.withRetry fn retries delay w in (some_result r, w')).
Proof.
  intros Hn. unfold Bot.retry_request, Bot.withRetry, py_range.
  destruct (Z.to_nat retries) as [|m] eqn:Em; [lia|].
  rewrite py_range_seq.
  cbn [Bot.retry_loop Bot.withRetry_from].
  change (1 <? 1) with false. unfold bind at 2, ret at 1. cbv beta iota.
  destruct (fn w) as [[a|e] w']; [reflexivity|].
  destruct m as [|m].
  - replace (Z.of_nat 0 <? retries - 1) with false
      by (symmetry; apply Z.ltb_ge; lia).
    reflexivity.
  - replace (Z.of_nat 0 <? retries - 1) with true
      by (symmetry; apply Z.ltb_lt; lia).
    pose proof (retry_loop_withRetry_from fn delay m 1 e w' ltac:(lia)) as H.
    replace (Z.of_nat (1 + S m)) with retries in H by lia.
    exact H.
Qed.

(** Three attempts, the first two failing: the wrapper ends with the third
    attempt, whatever its outcome. *)
Lemma retry_request_third {A : Type} (fn : M Bot.World A)
    (w0 w1 w2 w3 : Bot.World) (e1 e2 : exn) (o3 : result A) :
  fn w0 = (Raise e1, w1) ->
  fn (Bot.slept 1 w1) = (Raise e2, w2) ->
  fn (Bot.slept 2 w2) = (o3, w3) ->
  Bot.withRetry fn 3 1 w0 = (o3, w3)
  /\ Bot.retry_request fn 3 1 w0 = (some_result o3, w3).
Proof.
  intros H1 H2 H3.
  assert (Hspec : Bot.withRetry fn 3 1 w0 = (o3, w3)).
  { unfold Bot.withRetry. change (Z.to_nat 3) with 3%nat.
    cbn [Bot.withRetry_from]. unfold bind, ret, Bot.sleep.
    change (1 <? 1) with false. cbv beta iota. rewrite H1.
    change (1 <? 1 + 1) with true. cbv beta iota.
    change (1 * 2 ^ (1 + 1 - 2)) with 1. rewrite H2.
    change (1 <? 1 + 1 + 1) with true. cbv beta iota.
    change (1 * 2 ^ (1 + 1 + 1 - 2)) with 2. rewrite H3.
    destruct o3; reflexivity. }
  split; [exact Hspec|].
  rewrite retry_request_refines_withRetry by lia. now rewrite Hspec.
Qed.

(** C5. With [retries = 3] and [delay = 1]: when the operation fails on the
    first attempt, fails again on the second attempt made after a sleep of
    [delay], and is then attempted a third time after a sleep of
    [2 * delay], the wrapper ends with that third attempt and nothing
    after it: its result is returned if it is one, its error is raised if
    it is one. The world it leaves is the one the third attempt left, so the
    operation ran exactly three times with exactly those two sleeps. The
    wrapper agrees with the contract [withRetry], whose delay before
    attempt [i > 1] is [baseDelay * 2^(i-2)]. *)
Theorem retry_request_three_attempts {A : Type} (fn : M Bot.World A)
    (w0 w1 w2 w3 : Bot.World) (e1 e2 : exn) (o3 : result A) :
  fn w0 = (Raise e1, w1) ->
  fn (Bot.slept 1 w1) = (Raise e2, w2) ->
  fn (Bot.slept 2 w2) = (o3, w3) ->
  Bot.retry_request fn 3 1 w0 = (some_result o3, w3)
  /\ Bot.withRetry fn 3 1 w0 = (o3, w3)
  /\ (forall r, o3 = Ok r -> Bot.retry_request fn 3 1 w0 = (Ok (Some r), w3))
  /\ (forall e3, o3 = Raise e3 -> Bot.retry_request fn 3 1 w0 = (Raise e3, w3)).
Proof.
  intros H1 H2 H3.
  destruct (retry_request_third fn w0 w1 w2 w3 e1 e2 o3 H1 H2 H3) as [Hspec Hcode].
  repeat split; try assumption.
  - intros r ->. exact Hcode.
  - intros e3 ->. exact Hcode.
Qed.

Lemma retry_request_three_attempts_witness :
  Bot.retry_request Scenario.flaky 3 1 {| Bot.redis := ∅; Bot.clock := 0; Bot.trace := [] |}
  = (Ok (Some 3),
     {| Bot.redis := ∅; Bot.clock := 3; Bot.trace := [EvSleep 1; EvSleep 2] |}).
Proof.
  refine (proj1 (retry_request_three_attempts Scenario.flaky
            {| Bot.redis := ∅; Bot.clock := 0; Bot.trace := [] |}
            {| Bot.redis := ∅; Bot.clock := 0; Bot.trace := [] |}
            {| Bot.redis := ∅; Bot.clock := 1; Bot.trace := [EvSleep 1] |}
            {| Bot.redis := ∅; Bot.clock := 3; Bot.trace := [EvSleep 1; EvSleep 2] |}
            (ClientError 0) (ClientError 1) (Ok 3) _ _ _)); reflexivity.
Defined.

(* ===================================================================== *)
(** * Properties of the asynchronous handler                              *)
(* ===================================================================== *)

Lemma bind_ok {W A B : Type} (c : M W A) (k : A -> M W B) (w w' : W) (a : A) :
  c w = (Ok a, w') -> bind c k w = k a w'.
Proof. intros H. unfold bind. now rewrite H. Qed.

Lemma bind_raise {W A B : Type} (c : M W A) (k : A -> M W B) (w w' : W) (e : exn) :
  c w = (Raise e, w') -> bind c k w = (Raise e, w').
Proof. intros H. unfold bind. now rewrite H. Qed.

Section BotFacts.

Context (env : Bot.Env).

Lemma speak_spoken (t : json) (w : Bot.World) : Bot.speak env t w = Bot.spoken env t w.
Proof.
  unfold Bot.speak, Bot.spoken, Bot.yandex_tts, Bot.call, bind, ret.
  now destruct (Bot.tts_synthesize env w t).
Qed.

(** Once intent resolution has produced a directive, the handler is the
    action chain followed by speech synthesis. *)
Lemma webhook_resolved (data : Bot.Request) (w w' : Bot.World) (d : json) :
  Bot.resolves env data w d w' ->
  Bot.webhook env data w
  = (reply_text <- Bot.handle_actions env (default "unknown" (Bot.callerid data))
                     (Bot.call_id data) d ;;
     Bot.speak env reply_text) w'.
Proof.
  intros (Hev & url & audio & text & w1 & w2 & Hurl & Hne & Hget & Hstt & Htext & Hgpt).
  unfold Bot.webhook. rewrite Hev, Hurl.
  rewrite bool_decide_eq_false_2 by discriminate.
  rewrite bool_decide_eq_true_2 by reflexivity.
  rewrite (eqb_false_of_ne _ _ Hne). cbn [negb andb].
  rewrite (bind_ok _ _ _ _ _ Hget), (bind_ok _ _ _ _ _ Hstt).
  rewrite (eqb_false_of_ne _ _ Htext).
  now rewrite (bind_ok _ _ _ _ _ Hgpt).
Qed.

(** A directive with a textual tag is a JSON object, and its reply text is
    read from it. *)
Lemma directive_fields (d : json) (a : string) :
  py_get d "act" (JStr "say") = Ok (JStr a) ->
  exists ms, d = JObj ms /\ py_get d "text" (JStr "") = Ok (default (JStr "") (assoc "text" ms)).
Proof.
  destruct d; cbn; try discriminate. intros _. eauto.
Qed.

(** The first query of the [show_slots] loop failing on all three attempts
    ends the loop with the third error. *)
Lemma get_slots_exhausted (sid stf : Z) (w : Bot.World) (e1 e2 e3 : exn) :
  let ev := EvGetSlots sid stf in
  Bot.book_times env w sid stf = Raise e1 ->
  Bot.book_times env (Bot.slept 1 (Bot.log ev w)) sid stf = Raise e2 ->
  Bot.book_times env (Bot.slept 2 (Bot.log ev (Bot.slept 1 (Bot.log ev w)))) sid stf = Raise e3 ->
  Bot.get_slots env sid stf w
  = (Raise e3, Bot.log ev (Bot.slept 2 (Bot.log ev (Bot.slept 1 (Bot.log ev w))))).
Proof.
  intros ev H1 H2 H3. unfold Bot.get_slots.
  refine (proj2 (retry_request_third (Bot.get_slots_do env sid stf) w _ _ _ e1 e2
                   (Raise e3) _ _ _)).
  - unfold Bot.get_slots_do, Bot.call, bind. now rewrite H1.
  - unfold Bot.get_slots_do, Bot.call, bind. fold ev. now rewrite H2.
  - unfold Bot.get_slots_do, Bot.call, bind. fold ev. now rewrite H3.
Qed.

(** An error of the slot collection leaves the handler without a reply. *)
Lemma show_slots_error_propagates (data : Bot.Request) (w w3 w4 : Bot.World)
    (d : json) (e : exn) :
  Bot.resolves env data w d w3 ->
  py_get d "act" (JStr "say") = Ok (JStr "show_slots") ->
  foldM (Bot.query_pair env) []
    (list_prod (Bot.YCLIENTS_SERVICE_IDS env) (Bot.YCLIENTS_STAFF_IDS env)) w3
  = (Raise e, w4) ->
  Bot.webhook env data w = (Raise e, w4).
Proof.
  intros Hres Hact Hloop.
  rewrite (webhook_resolved _ _ _ _ Hres).
  destruct (directive_fields _ _ Hact) as (ms & -> & Htext).
  unfold Bot.handle_actions.
  unfold bind at 1. unfold bind at 1. unfold lift at 1. rewrite Hact.
  unfold bind at 1. unfold lift at 1. rewrite Htext.
  cbn [String.eqb Ascii.eqb Bool.eqb]. unfold Bot.show_slots.
  unfold bind at 1. now rewrite Hloop.
Qed.

End BotFacts.

Lemma foldM_app {W A B : Type} (f : A -> B -> M W A) (l1 l2 : list B) :
  forall (acc : A) (w : W),
    foldM f acc (l1 ++ l2) w = (acc' <- foldM f acc l1 ;; foldM f acc' l2) w.
Proof.
  induction l1 as [|x l1 IH]; intros acc w; [reflexivity|].
  cbn [app foldM]. unfold bind.
  destruct (f acc x w) as [[acc'|e] w']; [|reflexivity].
  rewrite IH. reflexivity.
Qed.

(** C2 (as amended). For a [show_slots] directive, when the scheduling
    client fails on all three attempts of one of the slot queries (the
    queries before it having been answered), the handler produces no
    reply: the error of the third attempt leaves the handler uncaught,
    after the two back-off sleeps, and speech synthesis is never called. *)
Theorem show_slots_exhausted_raises (env : Bot.Env) (data : Bot.Request)
    (w w3 w4 : Bot.World) (d : json) (before after : list (string * string))
    (s0 t0 : string) (slots_so_far : list json) (sid stf : Z) (e1 e2 e3 : exn) :
  Bot.resolves env data w d w3 ->
  py_get d "act" (JStr "say") = Ok (JStr "show_slots") ->
  list_prod (Bot.YCLIENTS_SERVICE_IDS env) (Bot.YCLIENTS_STAFF_IDS env)
  = (before ++ (s0, t0) :: after)%list ->
  foldM (Bot.query_pair env) [] before w3 = (Ok slots_so_far, w4) ->
  py_int s0 = Some sid ->
  py_int t0 = Some stf ->
  Bot.book_times env w4 sid stf = Raise e1 ->
  Bot.book_times env (Bot.slept 1 (Bot.log (EvGetSlots sid stf) w4)) sid stf = Raise e2 ->
  Bot.book_times env
    (Bot.slept 2 (Bot.log (EvGetSlots sid stf)
       (Bot.slept 1 (Bot.log (EvGetSlots sid stf) w4)))) sid stf = Raise e3 ->
  Bot.webhook env data w
  = (Raise e3,
     Bot.log (EvGetSlots sid stf)
       (Bot.slept 2 (Bot.log (EvGetSlots sid stf)
          (Bot.slept 1 (Bot.log (EvGetSlots sid stf) w4))))).
Proof.
  intros Hres Hact Hpairs Hbefore Hsid Hstf H1 H2 H3.
  apply (show_slots_error_propagates env data w w3 _ d e3 Hres Hact).
  rewrite Hpairs, foldM_app. rewrite (bind_ok _ _ _ _ _ Hbefore).
  cbn [foldM]. apply bind_raise. unfold Bot.query_pair. cbn [fst snd].
  unfold Bot.to_int. rewrite Hsid, Hstf.
  unfold bind at 1. unfold lift at 1. unfold bind at 1. unfold lift at 1.
  apply bind_raise. now apply (get_slots_exhausted env sid stf w4 e1 e2 e3).
Qed.

Lemma show_slots_exhausted_raises_witness :
  fst (Bot.webhook Scenario.show_slots_env Scenario.speech (Scenario.bot_world None))
  = Raise (ClientError 503).
Proof.
  refine (f_equal fst
    (show_slots_exhausted_raises Scenario.show_slots_env Scenario.speech
       (Scenario.bot_world None) _ _ _ [] [("12", "7")] "11" "7" [] 11 7
       (ClientError 503) (ClientError 503) (ClientError 503) _ _ _ _ _ _ _ _ _)).
  - split; [reflexivity|].
    do 5 eexists. repeat split; try reflexivity; discriminate.
  - reflexivity.
  - reflexivity.
  - reflexivity.
  - reflexivity.
  - reflexivity.
  - reflexivity.
  - reflexivity.
  - reflexivity.
Defined.

(** C2, as stated, fails: with the provider down on every attempt the
    handler ends with the provider's error instead of a reply; the
    provider was asked three times and nothing was spoken. *)
Lemma show_slots_provider_down_no_reply :
  fst (Bot.webhook Scenario.show_slots_env Scenario.speech (Scenario.bot_world None))
  = Raise (ClientError 503)
  /\ Bot.trace (snd (Bot.webhook Scenario.show_slots_env Scenario.speech
                       (Scenario.bot_world None)))
     = [EvDownload Scenario.recording; EvSTT "mp3";
        EvChat [("system", "prompt"); ("user", "запишите меня")];
        EvGetSlots 11 7; EvSleep 1; EvGetSlots 11 7; EvSleep 2; EvGetSlots 11 7].
Proof. split; vm_compute; reflexivity. Qed.

Section BotDispatch.

Context (env : Bot.Env).

Lemma book_tag_not_show_slots (a : string) :
  py_startswith "book" a = true -> String.eqb a "show_slots" = false.
Proof.
  intros H. destruct (String.eqb_spec a "show_slots") as [->|]; [discriminate|reflexivity].
Qed.

(** A tag that starts with [book] sends the handler into the [book]
    branch. *)
Lemma handle_actions_book (caller : string) (cid : option string) (d t : json)
    (a : string) (w : Bot.World) :
  py_get d "act" (JStr "say") = Ok (JStr a) ->
  py_get d "text" (JStr "") = Ok t ->
  py_startswith "book" a = true ->
  Bot.handle_actions env caller cid d w = Bot.book env caller cid a t w.
Proof.
  intros Hact Htext Hbook. unfold Bot.handle_actions.
  unfold bind at 1. unfold lift at 1. rewrite Hact.
  unfold bind at 1. unfold lift at 1. rewrite Htext.
  now rewrite (book_tag_not_show_slots _ Hbook), Hbook.
Qed.

(** Any other textual tag than the three the chain tests for leaves the
    directive's text as the reply and the world as it was. *)
Lemma handle_actions_other (caller : string) (cid : option string) (d t : json)
    (a : string) (w : Bot.World) :
  py_get d "act" (JStr "say") = Ok (JStr a) ->
  py_get d "text" (JStr "") = Ok t ->
  a <> "show_slots" ->
  py_startswith "book" a = false ->
  a <> "goodbye" ->
  Bot.handle_actions env caller cid d w = (Ok t, w).
Proof.
  intros Hact Htext Hs Hb Hg. unfold Bot.handle_actions.
  unfold bind at 1. unfold lift at 1. rewrite Hact.
  unfold bind at 1. unfold lift at 1. rewrite Htext.
  now rewrite (eqb_false_of_ne _ _ Hs), Hb, (eqb_false_of_ne _ _ Hg).
Qed.

(** Without a cached value the [book] branch does nothing. *)
Lemma book_without_cache (caller : string) (cid : option string) (a : string)
    (t : json) (w : Bot.World) :
  Bot.redis_lookup (Bot.call_key cid "slots") w = None ->
  Bot.book env caller cid a t w = (Ok t, w).
Proof.
  intros H. unfold Bot.book, Bot.redis_get, bind. now rewrite H.
Qed.

(** With a cached list and an index the choice accepts, the [book] branch
    is the booking call, whatever was chosen. *)
Lemma book_with_choice (caller : string) (cid : option string) (a raw : string)
    (t slots choice : json) (idx : Z) (w : Bot.World) :
  Bot.redis_lookup (Bot.call_key cid "slots") w = Some raw ->
  raw <> "" ->
  Bot.json_loads env raw = Some slots ->
  Bot.book_index a = Ok idx ->
  Bot.choose slots idx = Ok choice ->
  Bot.book env caller cid a t w = Bot.submit_booking env caller cid w.
Proof.
  intros Hraw Hne Hloads Hidx Hchoice.
  unfold Bot.book, Bot.redis_get. unfold bind at 1. rewrite Hraw.
  rewrite (eqb_false_of_ne _ _ Hne). unfold bind, lift.
  now rewrite Hloads, Hidx, Hchoice.
Qed.

(** The booking call answered by the provider with [res]. *)
Lemma submit_booking_answered (caller : string) (cid : option string)
    (sid stf : string) (ss ts : list string) (res flag : json) (w w' : Bot.World) :
  Bot.YCLIENTS_SERVICE_IDS env = sid :: ss ->
  Bot.YCLIENTS_STAFF_IDS env = stf :: ts ->
  Bot.create_record env (Bot.booking_request caller cid sid stf (Bot.clock w)) w
  = (Ok (Some res), w') ->
  py_get res "success" JNull = Ok flag ->
  Bot.submit_booking env caller cid w
  = (Ok (JStr (if truthy flag then Bot.success_phrase else Bot.failure_phrase)), w').
Proof.
  intros Hs Ht Hrec Hflag. unfold Bot.submit_booking. rewrite Hs, Ht.
  cbn [Bot.first_id]. unfold bind at 1. unfold lift at 1.
  unfold bind at 1. unfold lift at 1.
  unfold bind at 1. unfold Bot.time_now at 1.
  rewrite (bind_ok _ _ _ _ _ Hrec).
  unfold lift, Bot.booking_reply. now rewrite Hflag.
Qed.

(** Out of range, the choice is the first cached slot. *)
Lemma choose_out_of_range (s0 : json) (rest : list json) (idx : Z) :
  Z.of_nat (length (s0 :: rest)) <= idx ->
  Bot.choose (JArr (s0 :: rest)) idx = Ok s0.
Proof.
  intros H. unfold Bot.choose, py_len.
  replace (idx <? Z.of_nat (length (s0 :: rest))) with false
    by (symmetry; apply Z.ltb_ge; lia).
  reflexivity.
Qed.

(** In range, the choice is the slot at the index. *)
Lemma choose_in_range (slots : list json) (i : nat) (s : json) :
  slots !! i = Some s ->
  Bot.choose (JArr slots) (Z.of_nat i) = Ok s.
Proof.
  intros H. pose proof (lookup_lt_Some _ _ _ H) as Hlt.
  unfold Bot.choose, py_len.
  replace (Z.of_nat i <? Z.of_nat (length slots)) with true
    by (symmetry; apply Z.ltb_lt; lia).
  unfold py_index, list_index.
  replace (0 <=? Z.of_nat i) with true by (symmetry; apply Z.leb_le; lia).
  replace (Z.of_nat i <? Z.of_nat (length slots)) with true
    by (symmetry; apply Z.ltb_lt; lia).
  cbn [andb]. now rewrite Nat2Z.id, H.
Qed.

End BotDispatch.

(** X25. Every tag [book(<digits>)], for a non-empty run of ASCII digits,
    enters the [book] branch. Its index is the number the digits denote
    when they are at most 4300, the interpreter's default limit on the
    digits [int] converts; a longer run makes [int] raise [ValueError]. *)
Lemma book_index_canonical (ds : string) :
  all_digits ds = true -> ds <> "" ->
  py_startswith "book" ("book(" +:+ ds +:+ ")") = true
  /\ Bot.book_index ("book(" +:+ ds +:+ ")")
     = if Z.of_nat (String.length ds) <=? int_max_str_digits
       then Ok (dec_value 0 ds) else Raise ValueError.
Proof.
  intros Hs Hne. split; [reflexivity|].
  unfold Bot.book_index, py_replace_empty.
  change ("book(" +:+ ds +:+ ")") with (String "b" (String "o" (String "o" (String "k"
             (String "(" (ds +:+ ")")))))).
  assert (Hrm : remove_all "book" 0
                  (String "b" (String "o" (String "o" (String "k"
                     (String "(" (ds +:+ ")"))))))
                = String "(" (ds +:+ ")")).
  { cbn -[String.append]. now rewrite (remove_book_digits ds Hs). }
  rewrite Hrm.
  assert (Hstrip : py_strip_chars ["("; ")"] (String "(" (ds +:+ ")")) = ds).
  { unfold py_strip_chars, strip_tokens.
    assert (Hl : lstrip_tokens ["("; ")"] 0 (String "(" (ds +:+ ")")) = ds +:+ ")").
    { cbn -[String.append]. rewrite prefix_empty.
      destruct ds as [|c ds]; [now destruct Hne|].
      change (String c ds +:+ ")") with (String c (ds +:+ ")")).
      apply lstrip_tokens_none.
      cbn [all_digits] in Hs. destruct (digit_val c) as [d|] eqn:Hd; [|discriminate].
      now apply (token_len_digit _ c _ d). }
    rewrite Hl.
    replace (String.rev (ds +:+ ")")) with (String ")" (String.rev ds))
      by (unfold String.rev; now rewrite rev_app_append).
    assert (Hr : lstrip_tokens (map String.rev ["("; ")"]) 0 (String ")" (String.rev ds))
                 = String.rev ds).
    { change (map String.rev ["("; ")"]) with ["("; ")"].
      cbn -[String.append String.rev]. rewrite prefix_empty.
      apply lstrip_tokens_digits; [reflexivity | now rewrite all_digits_rev]. }
    rewrite Hr. apply string_rev_involutive. }
  rewrite Hstrip. rewrite (eqb_false_of_ne _ _ Hne).
  unfold Bot.to_int. rewrite (py_int_digits ds Hs Hne).
  now destruct (Z.of_nat (String.length ds) <=? int_max_str_digits).
Qed.

(** The slot cache written by [show_slots] lives 3600 seconds: it is read
    back before that and gone from then on. *)
Lemma slot_cache_expiry (key value : string) (seconds : Z) (w : Bot.World) :
  0 <= seconds ->
  Bot.redis_lookup key (Bot.elapse seconds (snd (Bot.redis_set key value 3600 w)))
  = if seconds <? 3600 then Some value else None.
Proof.
  intros Hs. unfold Bot.redis_lookup, Bot.elapse, Bot.redis_set. cbn.
  rewrite lookup_insert_eq.
  destruct (Z.ltb_spec seconds 3600) as [Hlt|Hge].
  - replace (Bot.clock w + seconds <? Bot.clock w + 3600) with true
      by (symmetry; apply Z.ltb_lt; lia).
    reflexivity.
  - replace (Bot.clock w + seconds <? Bot.clock w + 3600) with false
      by (symmetry; apply Z.ltb_ge; lia).
    reflexivity.
Qed.

(** Whatever slot an index in range selects, what is left of the handler
    is the same booking call: the chosen slot takes no part in it. *)
Lemma booking_ignores_choice (env : Bot.Env) (data : Bot.Request)
    (w w3 : Bot.World) (d t s : json) (slots : list json) (a raw : string) (i : nat) :
  Bot.resolves env data w d w3 ->
  py_get d "act" (JStr "say") = Ok (JStr a) ->
  py_startswith "book" a = true ->
  py_get d "text" (JStr "") = Ok t ->
  Bot.redis_lookup (Bot.call_key (Bot.call_id data) "slots") w3 = Some raw ->
  raw <> "" ->
  Bot.json_loads env raw = Some (JArr slots) ->
  Bot.book_index a = Ok (Z.of_nat i) ->
  slots !! i = Some s ->
  Bot.webhook env data w
  = (reply_text <- Bot.submit_booking env (default "unknown" (Bot.callerid data))
                     (Bot.call_id data) ;;
     Bot.speak env reply_text) w3.
Proof.
  intros Hres Hact Hbook Htext Hraw Hne Hloads Hidx Hs.
  rewrite (webhook_resolved _ _ _ _ _ Hres).
  unfold bind at 1.
  rewrite (handle_actions_book env _ _ d t a w3 Hact Htext Hbook).
  rewrite (book_with_choice env _ _ a raw t _ s _ w3 Hraw Hne Hloads Hidx
             (choose_in_range slots i s Hs)).
  reflexivity.
Qed.

Lemma booking_requests_app (tr1 tr2 : list Event) :
  booking_requests (tr1 ++ tr2) = (booking_requests tr1 ++ booking_requests tr2)%list.
Proof.
  induction tr1 as [|ev tr1 IH]; [reflexivity|].
  destruct ev; cbn; rewrite IH; reflexivity.
Qed.

(** C3 (as amended). For a [book] directive arriving when no slot list is
    cached for the call id (the key is absent or expired), no booking is
    made: the reply is the directive's own text, and after intent
    resolution the handler only calls speech synthesis. *)
Theorem book_without_cached_slots (env : Bot.Env) (data : Bot.Request)
    (w w3 : Bot.World) (d t : json) (a : string) :
  Bot.resolves env data w d w3 ->
  py_get d "act" (JStr "say") = Ok (JStr a) ->
  py_startswith "book" a = true ->
  py_get d "text" (JStr "") = Ok t ->
  Bot.redis_lookup (Bot.call_key (Bot.call_id data) "slots") w3 = None ->
  Bot.webhook env data w = Bot.spoken env t w3
  /\ booking_requests (Bot.trace (snd (Bot.webhook env data w)))
     = booking_requests (Bot.trace w3).
Proof.
  intros Hres Hact Hbook Htext Hnone.
  assert (H : Bot.webhook env data w = Bot.spoken env t w3).
  { rewrite (webhook_resolved _ _ _ _ _ Hres).
    unfold bind at 1.
    rewrite (handle_actions_book env _ _ d t a w3 Hact Htext Hbook).
    rewrite (book_without_cache env _ _ a t w3 Hnone).
    apply speak_spoken. }
  split; [exact H|].
  rewrite H. unfold Bot.spoken, Bot.log. cbn [snd Bot.trace].
  rewrite booking_requests_app. cbn. now rewrite app_nil_r.
Qed.

Lemma book_without_cached_slots_witness :
  Bot.webhook (Scenario.book_env "book(1)" Scenario.three_slots Scenario.accepted)
    Scenario.speech (Scenario.bot_world None)
  = Bot.spoken (Scenario.book_env "book(1)" Scenario.three_slots Scenario.accepted)
      (JStr "Записываю вас.")
      (Bot.log (EvChat [("system", "prompt"); ("user", "запишите меня")])
         (Bot.log (EvSTT "mp3")
            (Bot.log (EvDownload Scenario.recording) (Scenario.bot_world None)))).
Proof.
  refine (proj1 (book_without_cached_slots
    (Scenario.book_env "book(1)" Scenario.three_slots Scenario.accepted)
    Scenario.speech (Scenario.bot_world None) _ _ (JStr "Записываю вас.") "book(1)"
    _ _ _ _ _)).
  - split; [reflexivity|].
    do 5 eexists. repeat split; try reflexivity; discriminate.
  - reflexivity.
  - reflexivity.
  - reflexivity.
  - reflexivity.
Defined.

(** C3, as stated, fails: with nothing cached, [book(1)] makes no booking
    request and the reply is the model's own text, neither the success nor
    the failure phrase. *)
Lemma book_without_cache_makes_no_booking :
  fst (Bot.webhook (Scenario.book_env "book(1)" Scenario.three_slots Scenario.accepted)
         Scenario.speech (Scenario.bot_world None))
  = Ok (Bot.Spoken Scenario.playback (JStr "Записываю вас."))
  /\ booking_requests
       (Bot.trace (snd (Bot.webhook
          (Scenario.book_env "book(1)" Scenario.three_slots Scenario.accepted)
          Scenario.speech (Scenario.bot_world None)))) = []
  /\ JStr "Записываю вас." <> JStr Bot.success_phrase
  /\ JStr "Записываю вас." <> JStr Bot.failure_phrase.
Proof. repeat split; try (vm_compute; reflexivity); discriminate. Qed.

(** X24. The out-of-range fallback where it works (the part of C7 that
    holds). For a [book] directive whose index reads as [idx], when the
    cached slot list is a non-empty list and [idx] is at least its length,
    the choice resolves to the first cached slot without an error, and the
    handler goes on to the booking call: what is left of it is
    [submit_booking] followed by speech synthesis, so that a provider
    answer [res] yields the success or the failure phrase according to its
    [success] member. *)
Theorem book_index_out_of_range (env : Bot.Env) (data : Bot.Request)
    (w w3 : Bot.World) (d t s0 : json) (rest : list json) (a raw : string) (idx : Z) :
  Bot.resolves env data w d w3 ->
  py_get d "act" (JStr "say") = Ok (JStr a) ->
  py_startswith "book" a = true ->
  py_get d "text" (JStr "") = Ok t ->
  Bot.redis_lookup (Bot.call_key (Bot.call_id data) "slots") w3 = Some raw ->
  raw <> "" ->
  Bot.json_loads env raw = Some (JArr (s0 :: rest)) ->
  Bot.book_index a = Ok idx ->
  Z.of_nat (length (s0 :: rest)) <= idx ->
  Bot.choose (JArr (s0 :: rest)) idx = Ok s0
  /\ Bot.webhook env data w
     = (reply_text <- Bot.submit_booking env (default "unknown" (Bot.callerid data))
                        (Bot.call_id data) ;;
        Bot.speak env reply_text) w3
  /\ (forall sid stf ss ts res flag w4,
        Bot.YCLIENTS_SERVICE_IDS env = sid :: ss ->
        Bot.YCLIENTS_STAFF_IDS env = stf :: ts ->
        Bot.create_record env
          (Bot.booking_request (default "unknown" (Bot.callerid data)) (Bot.call_id data)
             sid stf (Bot.clock w3)) w3 = (Ok (Some res), w4) ->
        py_get res "success" JNull = Ok flag ->
        Bot.webhook env data w
        = Bot.spoken env
            (JStr (if truthy flag then Bot.success_phrase else Bot.failure_phrase)) w4).
Proof.
  intros Hres Hact Hbook Htext Hraw Hne Hloads Hidx Hge.
  pose proof (choose_out_of_range s0 rest idx Hge) as Hchoice.
  assert (H : Bot.webhook env data w
              = (reply_text <- Bot.submit_booking env (default "unknown" (Bot.callerid data))
                                 (Bot.call_id data) ;;
                 Bot.speak env reply_text) w3).
  { rewrite (webhook_resolved _ _ _ _ _ Hres).
    unfold bind at 1.
    rewrite (handle_actions_book env _ _ d t a w3 Hact Htext Hbook).
    rewrite (book_with_choice env _ _ a raw t _ s0 idx w3 Hraw Hne Hloads Hidx Hchoice).
    reflexivity. }
  repeat split; [exact Hchoice | exact H |].
  intros sid stf ss ts res flag w4 Hs Ht Hrec Hflag.
  rewrite H.
  rewrite (bind_ok _ _ _ _ _
             (submit_booking_answered env _ _ sid stf ss ts res flag w3 w4 Hs Ht Hrec Hflag)).
  apply speak_spoken.
Qed.

Lemma book_index_out_of_range_witness :
  Bot.choose (Scenario.arr_json Scenario.three_slots) 5
  = Ok (Scenario.obj_json [("time", "10:00"); ("datetime", "2030-05-01T10:00:00+03:00")]).
Proof.
  refine (proj1 (book_index_out_of_range
    (Scenario.book_env "book(5)" Scenario.three_slots Scenario.accepted)
    Scenario.speech (Scenario.cached_world Scenario.three_slots) _ _
    (JStr "Записываю вас.")
    (Scenario.obj_json [("time", "10:00"); ("datetime", "2030-05-01T10:00:00+03:00")])
    (map Scenario.obj_json
       [ [("time", "10:30"); ("datetime", "2030-05-01T10:30:00+03:00")];
         [("time", "11:00"); ("datetime", "2030-05-01T11:00:00+03:00")] ])
    "book(5)" (Scenario.arr_text Scenario.three_slots) 5
    _ _ _ _ _ _ _ _ _)).
  - split; [reflexivity|].
    do 5 eexists. repeat split; try reflexivity; discriminate.
  - reflexivity.
  - reflexivity.
  - reflexivity.
  - reflexivity.
  - discriminate.
  - reflexivity.
  - reflexivity.
  - cbn. lia.
Defined.

(** C7, evaluated on an empty cached list (what [show_slots] caches when
    the provider offers nothing). The list exists and index 0 is not
    below its count 0, so the fallback reads [slots[0]]: the handler ends
    with [IndexError] instead of resolving the choice, and no booking is
    made. *)
Lemma book_on_empty_cache_raises :
  Bot.redis_lookup (Bot.call_key (Some Scenario.the_call) "slots")
    (Scenario.cached_world []) = Some "[]"
  /\ Bot.book_index "book(0)" = Ok 0
  /\ fst (Bot.webhook (Scenario.book_env "book(0)" [] Scenario.accepted)
            Scenario.speech (Scenario.cached_world []))
     = Raise IndexError
  /\ booking_requests
       (Bot.trace (snd (Bot.webhook (Scenario.book_env "book(0)" [] Scenario.accepted)
                          Scenario.speech (Scenario.cached_world [])))) = [].
Proof. repeat split; vm_compute; reflexivity. Qed.

(** C1, evaluated on scenario D. [book(1)] against three cached slots: the
    choice is the slot at index 1, yet the request sent to the provider
    carries the first configured service and staff ids and the time of the
    call plus one hour (1000 + 3600), and it is the same request for
    [book(0)] and [book(2)]. The reply follows the provider's success
    flag. *)
Theorem book_request_ignores_chosen_slot :
  Bot.choose (Scenario.arr_json Scenario.three_slots) 1
  = Ok (Scenario.obj_json [("time", "10:30"); ("datetime", "2030-05-01T10:30:00+03:00")])
  /\ booking_requests
       (Bot.trace (snd (Bot.webhook
          (Scenario.book_env "book(1)" Scenario.three_slots Scenario.accepted)
          Scenario.speech (Scenario.cached_world Scenario.three_slots))))
     = [ {| phone := Scenario.caller_id; fullname := Bot.guest_name;
            service_id := "11"; staff_id := "7"; ts_unix := 4600;
            api_id := Some Scenario.the_call |} ]
  /\ booking_requests
       (Bot.trace (snd (Bot.webhook
          (Scenario.book_env "book(0)" Scenario.three_slots Scenario.accepted)
          Scenario.speech (Scenario.cached_world Scenario.three_slots))))
     = booking_requests
         (Bot.trace (snd (Bot.webhook
            (Scenario.book_env "book(1)" Scenario.three_slots Scenario.accepted)
            Scenario.speech (Scenario.cached_world Scenario.three_slots))))
  /\ booking_requests
       (Bot.trace (snd (Bot.webhook
          (Scenario.book_env "book(2)" Scenario.three_slots Scenario.accepted)
          Scenario.speech (Scenario.cached_world Scenario.three_slots))))
     = booking_requests
         (Bot.trace (snd (Bot.webhook
            (Scenario.book_env "book(1)" Scenario.three_slots Scenario.accepted)
            Scenario.speech (Scenario.cached_world Scenario.three_slots))))
  /\ fst (Bot.webhook
            (Scenario.book_env "book(1)" Scenario.three_slots Scenario.accepted)
            Scenario.speech (Scenario.cached_world Scenario.three_slots))
     = Ok (Bot.Spoken Scenario.playback (JStr Bot.success_phrase))
  /\ fst (Bot.webhook
            (Scenario.book_env "book(1)" Scenario.three_slots Scenario.rejected)
            Scenario.speech (Scenario.cached_world Scenario.three_slots))
     = Ok (Bot.Spoken Scenario.playback (JStr Bot.failure_phrase)).
Proof. repeat split; vm_compute; reflexivity. Qed.

(** C8 (as amended). For a directive whose tag is a string other than
    [show_slots] and [goodbye] that does not start with [book], the reply
    is the directive's text (the empty string when it has none); the chain
    raises nothing and no scheduling or booking side effect runs: it leaves
    the world as it found it, with no call to the scheduling provider and
    no key written or deleted, and after intent resolution the handler
    only calls speech synthesis. *)
Theorem unknown_tag_says_text (env : Bot.Env) (data : Bot.Request)
    (w w3 : Bot.World) (d t : json) (a : string) :
  Bot.resolves env data w d w3 ->
  py_get d "act" (JStr "say") = Ok (JStr a) ->
  py_get d "text" (JStr "") = Ok t ->
  a <> "show_slots" ->
  py_startswith "book" a = false ->
  a <> "goodbye" ->
  Bot.handle_actions env (default "unknown" (Bot.callerid data)) (Bot.call_id data) d w3
  = (Ok t, w3)
  /\ Bot.webhook env data w = Bot.spoken env t w3.
Proof.
  intros Hres Hact Htext Hs Hb Hg.
  pose proof (handle_actions_other env (default "unknown" (Bot.callerid data))
                (Bot.call_id data) d t a w3 Hact Htext Hs Hb Hg) as H.
  split; [exact H|].
  rewrite (webhook_resolved _ _ _ _ _ Hres).
  rewrite (bind_ok _ _ _ _ _ H). apply speak_spoken.
Qed.

Lemma unknown_tag_says_text_witness :
  Bot.webhook (Scenario.book_env "transfer" Scenario.three_slots Scenario.accepted)
    Scenario.speech (Scenario.cached_world Scenario.three_slots)
  = Bot.spoken (Scenario.book_env "transfer" Scenario.three_slots Scenario.accepted)
      (JStr "Записываю вас.")
      (Bot.log (EvChat [("system", "prompt"); ("user", "запишите меня")])
         (Bot.log (EvSTT "mp3")
            (Bot.log (EvDownload Scenario.recording)
               (Scenario.cached_world Scenario.three_slots)))).
Proof.
  refine (proj2 (unknown_tag_says_text
    (Scenario.book_env "transfer" Scenario.three_slots Scenario.accepted)
    Scenario.speech (Scenario.cached_world Scenario.three_slots) _ _
    (JStr "Записываю вас.") "transfer" _ _ _ _ _ _)).
  - split; [reflexivity|].
    do 5 eexists. repeat split; try reflexivity; discriminate.
  - reflexivity.
  - reflexivity.
  - discriminate.
  - reflexivity.
  - discriminate.
Defined.

(** C8, as stated, fails. A tag that is a number ends the handler with
    [AttributeError]; the unknown tag [bookmark] enters the [book] branch
    and, with slots cached, ends it with [ValueError]; the unknown tag
    [bookbook] enters it as index 0 and a booking request is sent. *)
Lemma unknown_tags_not_degraded :
  fst (Bot.webhook Scenario.numeric_tag_env Scenario.speech (Scenario.bot_world None))
  = Raise AttributeError
  /\ fst (Bot.webhook (Scenario.book_env "bookmark" Scenario.three_slots Scenario.accepted)
            Scenario.speech (Scenario.cached_world Scenario.three_slots))
     = Raise ValueError
  /\ booking_requests
       (Bot.trace (snd (Bot.webhook
          (Scenario.book_env "bookbook" Scenario.three_slots Scenario.accepted)
          Scenario.speech (Scenario.cached_world Scenario.three_slots))))
     = [ Bot.booking_request Scenario.caller_id (Some Scenario.the_call) "11" "7" 1000 ].
Proof. repeat split; vm_compute; reflexivity. Qed.

(* ===================================================================== *)
(** * Intent resolution                                                   *)
(* ===================================================================== *)

(** C6 (as amended). When the model's output, with the whitespace at its
    two ends stripped, is not JSON, intent resolution returns the
    directive with tag [say] whose text is that stripped output, nothing
    else cut or changed; the text is the raw output itself when the
    output has no whitespace at either end. An output that is JSON is
    returned as decoded. *)
Theorem ask_gpt_fallback (env : Bot.Env) (caller text raw : string) (w : Bot.World) :
  Bot.chat_completion env w [("system", Bot.PROMPT env); ("user", text)] = Ok raw ->
  (Bot.json_loads env (py_strip raw) = None ->
   Bot.ask_gpt env caller text w
   = (Ok (JObj [("act", JStr "say"); ("text", JStr (py_strip raw)); ("hints", JArr [])]),
      Bot.log (EvChat [("system", Bot.PROMPT env); ("user", text)]) w)
   /\ (token_len ws_tokens raw = 0%nat ->
       token_len (map String.rev ws_tokens) (String.rev raw) = 0%nat ->
       Bot.ask_gpt env caller text w
       = (Ok (JObj [("act", JStr "say"); ("text", JStr raw); ("hints", JArr [])]),
          Bot.log (EvChat [("system", Bot.PROMPT env); ("user", text)]) w)))
  /\ (forall data,
        Bot.json_loads env (py_strip raw) = Some data ->
        Bot.ask_gpt env caller text w
        = (Ok data, Bot.log (EvChat [("system", Bot.PROMPT env); ("user", text)]) w)).
Proof.
  intros Hchat. split.
  - intros Hloads.
    assert (H : Bot.ask_gpt env caller text w
                = (Ok (Bot.fallback_directive (py_strip raw)),
                   Bot.log (EvChat [("system", Bot.PROMPT env); ("user", text)]) w)).
    { unfold Bot.ask_gpt, Bot.call, bind, ret. now rewrite Hchat, Hloads. }
    split; [exact H|].
    intros Hl Hr. rewrite H. now rewrite (py_strip_verbatim raw Hl Hr).
  - intros data Hloads.
    unfold Bot.ask_gpt, Bot.call, bind, ret. now rewrite Hchat, Hloads.
Qed.

Lemma ask_gpt_fallback_witness :
  Bot.ask_gpt Scenario.plain_text_env Scenario.caller_id "здравствуйте"
    (Scenario.bot_world None)
  = (Ok (JObj [("act", JStr "say"); ("text", JStr (py_strip "  Добрый день!  "));
               ("hints", JArr [])]),
     Bot.log (EvChat [("system", "prompt"); ("user", "здравствуйте")])
       (Scenario.bot_world None)).
Proof.
  refine (proj1 (proj1 (ask_gpt_fallback Scenario.plain_text_env Scenario.caller_id
                          "здравствуйте" "  Добрый день!  " (Scenario.bot_world None) _) _));
    reflexivity.
Defined.

(** C6, as stated, fails. An output that is not JSON and has blanks around
    it comes back without them, so the text differs from the raw output;
    and an output that is JSON but not a directive (here an empty array)
    is returned as decoded, not as a [say] directive, after which the
    handler ends with [AttributeError]. *)
Lemma fallback_text_not_verbatim :
  Bot.json_loads Scenario.plain_text_env "  Добрый день!  " = None
  /\ fst (Bot.ask_gpt Scenario.plain_text_env Scenario.caller_id "здравствуйте"
            (Scenario.bot_world None))
     = Ok (JObj [("act", JStr "say"); ("text", JStr "Добрый день!"); ("hints", JArr [])])
  /\ "Добрый день!" <> "  Добрый день!  "
  /\ fst (Bot.ask_gpt Scenario.array_output_env Scenario.caller_id "здравствуйте"
            (Scenario.bot_world None))
     = Ok (JArr [])
  /\ fst (Bot.webhook Scenario.array_output_env
            {| Bot.event := Some "SpeechCaptured"; Bot.callerid := Some Scenario.caller_id;
               Bot.call_id := Some Scenario.the_call;
               Bot.recording_url := Some Scenario.recording |}
            (Scenario.bot_world None))
     = Raise AttributeError.
Proof. repeat split; try (vm_compute; reflexivity); discriminate. Qed.

(* ===================================================================== *)
(** * The FAQ matcher                                                     *)
(* ===================================================================== *)

Lemma tuple_gt_true_le (x best : Q * string) :
  Main.tuple_gt x best = true -> (fst best <= fst x)%Q.
Proof.
  unfold Main.tuple_gt. destruct (Qcompare_spec (fst x) (fst best)) as [H|H|H].
  - intros _. rewrite H. apply Qle_refl.
  - discriminate.
  - intros _. now apply Qlt_le_weak.
Qed.

Lemma tuple_gt_false_le (x best : Q * string) :
  Main.tuple_gt x best = false -> (fst x <= fst best)%Q.
Proof.
  unfold Main.tuple_gt. destruct (Qcompare_spec (fst x) (fst best)) as [H|H|H].
  - intros _. rewrite H. apply Qle_refl.
  - intros _. now apply Qlt_le_weak.
  - discriminate.
Qed.

(** The maximum is at least every element it was taken over. *)
Lemma py_max_fst_ge (l : list (Q * string)) :
  forall best y, y = best \/ In y l -> (fst y <= fst (Main.py_max best l))%Q.
Proof.
  induction l as [|x l IH]; intros best y Hy; cbn [Main.py_max].
  - destruct Hy as [->|[]]. apply Qle_refl.
  - destruct (Main.tuple_gt x best) eqn:Hgt.
    + destruct Hy as [->|[->|Hin]].
      * eapply Qle_trans; [apply (tuple_gt_true_le _ _ Hgt)|]. apply IH. now left.
      * apply IH. now left.
      * apply IH. now right.
    + destruct Hy as [->|[->|Hin]].
      * apply IH. now left.
      * eapply Qle_trans; [apply (tuple_gt_false_le _ _ Hgt)|]. apply IH. now left.
      * apply IH. now right.
Qed.

(** The maximum is one of the elements. *)
Lemma py_max_in (l : list (Q * string)) :
  forall best, Main.py_max best l = best \/ In (Main.py_max best l) l.
Proof.
  induction l as [|x l IH]; intros best; cbn [Main.py_max]; [now left|].
  destruct (Main.tuple_gt x best).
  - destruct (IH x) as [->|H]; right; [now left | now right].
  - destruct (IH best) as [->|H]; [now left | right; now right].
Qed.

Section FaqFacts.

Context (env : Main.Env).

Lemma scored_in (cutoff : Q) (word : string) (possibilities : list string) (p : Q * string) :
  In p (Main.scored env cutoff word possibilities) <->
  In (snd p) possibilities
  /\ Main.close_enough env cutoff word (snd p) = true
  /\ fst p = Main.ratio env (snd p) word.
Proof.
  unfold Main.scored. rewrite in_map_iff. split.
  - intros (x & <- & Hx). apply filter_In in Hx. cbn. tauto.
  - intros (Hin & Hce & Hfst). exists (snd p). split.
    + destruct p as [sc x]. cbn in *. now subst.
    + apply filter_In. tauto.
Qed.

(** The loop over the FAQ finds an answer for every question of the
    FAQ. *)
Lemma first_answer_found (m : string) (faq : list (string * string)) :
  In m (map (fun q => Main.str_lower env (fst q)) faq) ->
  Main.first_answer env m faq <> None.
Proof.
  induction faq as [|[q a] faq IH]; [intros []|].
  cbn [map In fst Main.first_answer]. intros [Heq|Hin].
  - rewrite Heq, String.eqb_refl. discriminate.
  - destruct (String.eqb (Main.str_lower env q) m); [discriminate|]. now apply IH.
Qed.

(** The loop returns the answer of the first entry whose question is the
    match. *)
Lemma first_answer_first (m question answer : string)
    (before after : list (string * string)) :
  Main.str_lower env question = m ->
  (forall q a, In (q, a) before -> Main.str_lower env q <> m) ->
  Main.first_answer env m (before ++ (question, answer) :: after) = Some answer.
Proof.
  intros Hq. induction before as [|[q a] before IH]; intros Hnone.
  - cbn. now rewrite Hq, String.eqb_refl.
  - cbn [app Main.first_answer].
    rewrite (eqb_false_of_ne _ _ (Hnone q a (or_introl eq_refl))).
    apply IH. intros q' a' Hin. apply (Hnone q' a'). now right.
Qed.

(** What [find_faq_answer] returns for a cutoff in range. *)
Lemma find_faq_answer_unfold (user_text : string) (cutoff : Q) :
  (0 <= cutoff)%Q -> (cutoff <= 1)%Q ->
  Main.find_faq_answer env user_text cutoff
  = match Main.scored env cutoff (Main.str_lower env user_text)
            (map (fun q => Main.str_lower env (fst q)) (Main.FAQ env)) with
    | [] => Ok None
    | x :: l => Ok (Main.first_answer env (snd (Main.py_max x l)) (Main.FAQ env))
    end.
Proof.
  intros H0 H1. unfold Main.find_faq_answer, Main.get_close_matches.
  apply Qle_bool_iff in H0, H1. rewrite H0, H1. cbn [andb].
  now destruct (Main.scored _ _ _ _).
Qed.

Lemma find_faq_answer_in_range (user_text : string) (cutoff : Q) (r : option string) :
  Main.find_faq_answer env user_text cutoff = Ok r -> (0 <= cutoff)%Q /\ (cutoff <= 1)%Q.
Proof.
  unfold Main.find_faq_answer, Main.get_close_matches.
  destruct (Qle_bool 0 cutoff) eqn:H0; [|discriminate].
  destruct (Qle_bool cutoff 1) eqn:H1; [|discriminate].
  intros _. split; now apply Qle_bool_iff.
Qed.

Lemma close_enough_mono (c c' : Q) (word x : string) :
  (c <= c')%Q ->
  Main.close_enough env c' word x = true -> Main.close_enough env c word x = true.
Proof.
  intros Hc. unfold Main.close_enough. rewrite !andb_true_iff, !Qle_bool_iff.
  intros [[H1 H2] H3]. repeat split; eapply Qle_trans; eauto.
Qed.

Lemma filter_nil_mono {A : Type} (f g : A -> bool) (l : list A) :
  (forall x, g x = true -> f x = true) ->
  List.filter f l = [] -> List.filter g l = [].
Proof.
  intros Hfg. induction l as [|x l IH]; [reflexivity|]. cbn.
  destruct (f x) eqn:Hf; [discriminate|].
  destruct (g x) eqn:Hg; [rewrite (Hfg x Hg) in Hf; discriminate|]. exact IH.
Qed.

End FaqFacts.

(** C9 (as amended). For a fixed FAQ and a cutoff between 0 and 1: a user
    text equal, up to case, to a stored question gets the answer of the
    first entry whose question equals it up to case, which is that
    question's own answer when no earlier entry has the same question up
    to case (given the scores [difflib] assigns: full score for equal
    texts only). And the matcher is monotone in the cutoff: for
    [c <= c' <= 1], when it returns none at [c] it returns none at [c']. *)
Theorem find_faq_answer_exact_and_monotone (env : Main.Env) :
  (Main.difflib_scores env ->
   forall (user_text question answer : string) (before after : list (string * string))
          (cutoff : Q),
     (0 <= cutoff)%Q -> (cutoff <= 1)%Q ->
     Main.FAQ env = (before ++ (question, answer) :: after)%list ->
     Main.str_lower env question = Main.str_lower env user_text ->
     (forall q a, In (q, a) before ->
                  Main.str_lower env q <> Main.str_lower env user_text) ->
     Main.find_faq_answer env user_text cutoff = Ok (Some answer))
  /\ (forall (user_text : string) (c c' : Q),
        (c <= c')%Q -> (c' <= 1)%Q ->
        Main.find_faq_answer env user_text c = Ok None ->
        Main.find_faq_answer env user_text c' = Ok None).
Proof.
  split.
  - intros (Hsame & Hq & Hrq & Hle & Hone) user_text question answer before after
           cutoff H0 H1 Hfaq Hlow Hfirst.
    set (word := Main.str_lower env user_text) in *.
    set (questions := map (fun q => Main.str_lower env (fst q)) (Main.FAQ env)).
    assert (Hword : In word questions).
    { unfold questions. rewrite Hfaq, map_app, in_app_iff. right. left. exact Hlow. }
    assert (Hself : In (Main.ratio env word word, word)
                      (Main.scored env cutoff word questions)).
    { apply scored_in. cbn [fst snd]. repeat split; [exact Hword|].
      unfold Main.close_enough. rewrite !andb_true_iff, !Qle_bool_iff.
      repeat split.
      - eapply Qle_trans; [exact H1 | apply Hrq].
      - eapply Qle_trans; [exact H1 | apply Hq].
      - rewrite Hsame. exact H1. }
    rewrite (find_faq_answer_unfold env user_text cutoff H0 H1).
    fold word. fold questions.
    destruct (Main.scored env cutoff word questions) as [|x l] eqn:Hsc; [destruct Hself|].
    assert (Hbest : In (Main.py_max x l) (Main.scored env cutoff word questions)).
    { rewrite Hsc. destruct (py_max_in l x) as [->|H]; [now left | now right]. }
    apply scored_in in Hbest. destruct Hbest as (_ & _ & Hfst).
    assert (Hge : (fst (Main.ratio env word word, word) <= fst (Main.py_max x l))%Q).
    { apply py_max_fst_ge. destruct Hself as [->|H]; [now left | now right]. }
    cbn [fst] in Hge. rewrite Hsame, Hfst in Hge.
    assert (Hm : snd (Main.py_max x l) = word).
    { apply Hone. apply Qle_antisym; [apply Hle | exact Hge]. }
    rewrite Hm, Hfaq. f_equal. now apply first_answer_first.
  - intros user_text c c' Hcc Hc1 Hnone.
    destruct (find_faq_answer_in_range env _ _ _ Hnone) as [H0 H1].
    assert (H0' : (0 <= c')%Q) by (eapply Qle_trans; eauto).
    rewrite (find_faq_answer_unfold env user_text c H0 H1) in Hnone.
    rewrite (find_faq_answer_unfold env user_text c' H0' Hc1).
    set (word := Main.str_lower env user_text) in *.
    set (questions := map (fun q => Main.str_lower env (fst q)) (Main.FAQ env)) in *.
    destruct (Main.scored env c word questions) as [|x l] eqn:Hsc.
    + unfold Main.scored in Hsc. apply map_eq_nil in Hsc.
      unfold Main.scored.
      rewrite (filter_nil_mono _ _ _
                 (fun x => close_enough_mono env c c' word x Hcc) Hsc).
      reflexivity.
    + exfalso.
      assert (Hbest : In (Main.py_max x l) (Main.scored env c word questions)).
      { rewrite Hsc. destruct (py_max_in l x) as [->|H]; [now left | now right]. }
      apply scored_in in Hbest. destruct Hbest as (Hin & _ & _).
      apply (first_answer_found env _ _ Hin). congruence.
Qed.

Lemma exact_ratio_scores (faq : list (string * string)) (heard model_output : string) :
  Main.difflib_scores (Scenario.main_env faq heard model_output).
Proof.
  unfold Main.difflib_scores, Scenario.main_env, Scenario.exact_ratio; cbn.
  repeat split.
  - intros s. now rewrite String.eqb_refl.
  - intros s. rewrite String.eqb_refl. apply Qle_refl.
  - intros s. rewrite String.eqb_refl. apply Qle_refl.
  - intros a b. destruct (String.eqb a b); [apply Qle_refl | discriminate].
  - intros a b. destruct (String.eqb_spec a b); [easy | discriminate].
Qed.

Lemma find_faq_answer_exact_and_monotone_witness :
  Main.find_faq_answer (Scenario.main_env Scenario.price_faq "PRICE?" "-") "PRICE?"
    Main.default_cutoff
  = Ok (Some "100 rubles").
Proof.
  refine (proj1 (find_faq_answer_exact_and_monotone
                   (Scenario.main_env Scenario.price_faq "PRICE?" "-"))
            (exact_ratio_scores _ _ _)
            "PRICE?" "Price?" "100 rubles" [("Where are you?", "Main street 1")] []
            Main.default_cutoff _ _ _ _ _).
  - discriminate.
  - discriminate.
  - reflexivity.
  - reflexivity.
  - intros q a [H|[]]. inversion H. discriminate.
Defined.

(** C9, as stated, fails when two stored questions differ by case only:
    the user text is identical to the second stored question, whose
    paired answer is "200 rubles", and the matcher returns the answer of
    the first one. *)
Lemma twin_question_gets_first_answer :
  Scenario.twin_faq !! 1%nat = Some ("price?", "200 rubles")
  /\ Main.find_faq_answer (Scenario.main_env Scenario.twin_faq "price?" "-") "price?"
       Main.default_cutoff
     = Ok (Some "100 rubles")
  /\ "100 rubles" <> "200 rubles".
Proof. repeat split; try (vm_compute; reflexivity); discriminate. Qed.

(* ===================================================================== *)
(** * The synchronous handler and its sessions                            *)
(* ===================================================================== *)

Lemma chat_calls_app (tr1 tr2 : list Event) :
  chat_calls (tr1 ++ tr2) = (chat_calls tr1 ++ chat_calls tr2)%list.
Proof.
  induction tr1 as [|ev tr1 IH]; [reflexivity|].
  destruct ev; cbn; rewrite IH; reflexivity.
Qed.

Section MainFacts.

Context (env : Main.Env).

(** Downloading and recognising touch neither dictionary and ask the
    model nothing. *)
Lemma hears_frame (data : Main.Request) (w w' : Main.World) (user_text : string) :
  Main.hears env data w user_text w' ->
  Main.SESSIONS w' = Main.SESSIONS w
  /\ Main.LAST_ACTIVITY w' = Main.LAST_ACTIVITY w
  /\ Main.clock w' = Main.clock w
  /\ chat_calls (Main.trace w') = chat_calls (Main.trace w).
Proof.
  intros (_ & url & audio & w1 & _ & _ & Hget & Hstt).
  unfold Main.call in Hget. unfold Main.yandex_stt, Main.call in Hstt.
  inversion Hget; subst w1. inversion Hstt; subst w'.
  cbn. rewrite !chat_calls_app. cbn. now rewrite !app_nil_r.
Qed.

(** Once the utterance is recognised, the handler is the choice of the
    reply followed by speech synthesis. *)
Lemma webhook_hears (data : Main.Request) (w w' : Main.World) (user_text : string) :
  Main.hears env data w user_text w' ->
  Main.webhook env data w
  = (reply_text <- Main.reply_for env (default "unknown" (Main.callerid data)) user_text ;;
     playback_url <- Main.yandex_tts env reply_text ;;
     ret (Main.Spoken playback_url reply_text)) w'.
Proof.
  intros (Hev & url & audio & w1 & Hurl & Hne & Hget & Hstt).
  unfold Main.webhook. rewrite Hurl.
  rewrite bool_decide_eq_false_2 by exact Hev.
  rewrite (eqb_false_of_ne _ _ Hne).
  now rewrite (bind_ok _ _ _ _ _ Hget), (bind_ok _ _ _ _ _ Hstt).
Qed.

Lemma tts_spoken (t : string) (w : Main.World) :
  (playback_url <- Main.yandex_tts env t ;; ret (Main.Spoken playback_url t)) w
  = Main.spoken env t w.
Proof.
  unfold Main.spoken, Main.yandex_tts, Main.call, bind, ret.
  now destruct (Main.tts_synthesize env w (JStr t)).
Qed.

End MainFacts.

(** C10 (as amended). When the FAQ matcher returns a non-empty answer for
    the recognised text, the handler replies with that answer: the
    language model is not called and both session dictionaries are left
    exactly as they were. *)
Theorem faq_answer_skips_model (env : Main.Env) (data : Main.Request)
    (w w2 : Main.World) (user_text answer : string) :
  Main.hears env data w user_text w2 ->
  user_text <> "" ->
  Main.find_faq_answer env user_text Main.default_cutoff = Ok (Some answer) ->
  answer <> "" ->
  Main.webhook env data w = Main.spoken env answer w2
  /\ Main.SESSIONS (snd (Main.webhook env data w)) = Main.SESSIONS w
  /\ Main.LAST_ACTIVITY (snd (Main.webhook env data w)) = Main.LAST_ACTIVITY w
  /\ chat_calls (Main.trace (snd (Main.webhook env data w))) = chat_calls (Main.trace w).
Proof.
  intros Hhears Htext Hfaq Hans.
  destruct (hears_frame env _ _ _ _ Hhears) as (Hs & Hl & _ & Hc).
  assert (H : Main.webhook env data w = Main.spoken env answer w2).
  { rewrite (webhook_hears env _ _ _ _ Hhears).
    unfold bind at 1. unfold Main.reply_for.
    rewrite (eqb_false_of_ne _ _ Htext).
    unfold bind at 1. unfold lift at 1. rewrite Hfaq.
    rewrite (eqb_false_of_ne _ _ Hans). unfold ret at 1.
    apply tts_spoken. }
  rewrite H. unfold Main.spoken, Main.log. cbn [snd Main.SESSIONS Main.LAST_ACTIVITY Main.trace].
  repeat split; try assumption.
  rewrite chat_calls_app. cbn. now rewrite app_nil_r.
Qed.

Lemma faq_answer_skips_model_witness :
  Main.webhook (Scenario.main_env Scenario.price_faq "PRICE?" "-") Scenario.main_speech
    Scenario.main_world
  = Main.spoken (Scenario.main_env Scenario.price_faq "PRICE?" "-") "100 rubles"
      (Main.log (EvSTT "mp3") (Main.log (EvDownload Scenario.recording) Scenario.main_world)).
Proof.
  refine (proj1 (faq_answer_skips_model
                   (Scenario.main_env Scenario.price_faq "PRICE?" "-")
                   Scenario.main_speech Scenario.main_world _ "PRICE?" "100 rubles"
                   _ _ _ _)).
  - split; [discriminate|].
    do 3 eexists. repeat split; try reflexivity; discriminate.
  - discriminate.
  - reflexivity.
  - discriminate.
Defined.

(** C10, as stated, fails for an FAQ entry whose answer is empty: the
    matcher returns that answer, the handler takes it for no answer, asks
    the language model and appends both turns to the caller's session. *)
Lemma empty_faq_answer_asks_model :
  Main.find_faq_answer (Scenario.main_env Scenario.blank_faq "price?" "Sorry?") "price?"
    Main.default_cutoff
  = Ok (Some "")
  /\ fst (Main.webhook (Scenario.main_env Scenario.blank_faq "price?" "Sorry?")
            Scenario.main_speech Scenario.main_world)
     = Ok (Main.Spoken Scenario.playback "Sorry?")
  /\ chat_calls (Main.trace (snd (Main.webhook
         (Scenario.main_env Scenario.blank_faq "price?" "Sorry?")
         Scenario.main_speech Scenario.main_world)))
     = [ [("system", "prompt"); ("user", "price?")] ]
  /\ Main.SESSIONS Scenario.main_world !! Scenario.caller_id = None
  /\ Main.SESSIONS (snd (Main.webhook
         (Scenario.main_env Scenario.blank_faq "price?" "Sorry?")
         Scenario.main_speech Scenario.main_world)) !! Scenario.caller_id
     = Some [("user", "price?"); ("assistant", "Sorry?")].
Proof. repeat split; vm_compute; reflexivity. Qed.

(** Nothing reads the clock when a session is looked up. *)
Lemma session_of_elapse (caller : string) (seconds : Z) (w : Main.World) :
  Main.session_of caller (Main.elapse seconds w) = Main.session_of caller w.
Proof. reflexivity. Qed.

(** C4, evaluated. A caller speaks at second 0 and again 1000 seconds
    later, more than [SESSION_TTL] after the last activity recorded for
    the caller: the session looked up for the second turn still holds the
    two turns of the first, and they are sent to the language model with
    the new one. *)
Theorem session_outlives_ttl :
  Main.LAST_ACTIVITY
    (snd (Main.webhook (Scenario.main_env [] "hello" "answer") Scenario.main_speech
            Scenario.main_world)) !! Scenario.caller_id = Some 0
  /\ Main.SESSION_TTL < 1000 - 0
  /\ Main.session_of Scenario.caller_id
       (Main.elapse 1000
          (snd (Main.webhook (Scenario.main_env [] "hello" "answer") Scenario.main_speech
                  Scenario.main_world)))
     = [("user", "hello"); ("assistant", "answer")]
  /\ chat_calls (Main.trace (snd (Main.webhook (Scenario.main_env [] "again" "answer")
       Scenario.main_speech
       (Main.elapse 1000
          (snd (Main.webhook (Scenario.main_env [] "hello" "answer") Scenario.main_speech
                  Scenario.main_world))))))
     = [ [("system", "prompt"); ("user", "hello")];
         [("system", "prompt"); ("user", "hello"); ("assistant", "answer");
          ("user", "again")] ].
Proof. repeat split; vm_compute; reflexivity. Qed.

(* ===================================================================== *)
(** * Further properties of the retry wrapper                             *)
(* ===================================================================== *)

(** X1. With no attempt allowed ([retries <= 0]) the wrapper never calls
    the operation: it falls out of its loop and returns [None], leaving
    the world as it was. *)
Theorem retry_request_no_attempts {A : Type} (fn : M Bot.World A)
    (retries delay : Z) (w : Bot.World) :
  retries <= 0 ->
  Bot.retry_request fn retries delay w = (Ok None, w).
Proof.
  intros H. unfold Bot.retry_request, py_range.
  replace (Z.to_nat retries) with 0%nat by lia. reflexivity.
Qed.

Lemma retry_request_no_attempts_witness :
  Bot.retry_request Scenario.flaky 0 1
    {| Bot.redis := ∅; Bot.clock := 7; Bot.trace := [] |}
  = (Ok None, {| Bot.redis := ∅; Bot.clock := 7; Bot.trace := [] |}).
Proof.
  apply (retry_request_no_attempts Scenario.flaky 0 1
           {| Bot.redis := ∅; Bot.clock := 7; Bot.trace := [] |}).
  lia.
Defined.

(** The loop from index [k] on, for an operation that fails whenever it is
    called, leaves the clock alone and records the one call [ev]. *)
Lemma retry_loop_exhausted {A : Type} (fn : M Bot.World A) (ev : Event) (d : Z) (m : nat) :
  0 <= d ->
  (forall w, exists e w',
      fn w = (Raise e, w') /\ Bot.clock w' = Bot.clock w
      /\ Bot.trace w' = (Bot.trace w ++ [ev])%list) ->
  forall (k : nat) (w : Bot.World),
    exists e w0 w',
      Bot.retry_loop fn (Z.of_nat (k + S m)) d (map Z.of_nat (seq k (S m))) w
      = (Raise e, w')
      /\ fn w0 = (Raise e, w')
      /\ Bot.trace w'
         = (Bot.trace w
            ++ concat (map (fun i => [ev; EvSleep (d * 2 ^ i)]) (map Z.of_nat (seq k m)))
            ++ [ev])%list
      /\ Bot.clock w' = Bot.clock w + d * (2 ^ Z.of_nat (k + m) - 2 ^ Z.of_nat k).
Proof.
  intros Hd Hfail. induction m as [|m IH]; intros k w.
  - destruct (Hfail w) as (e & w' & Hfn & Hclock & Htrace).
    exists e, w, w'. cbn [seq map Bot.retry_loop concat]. rewrite Hfn.
    replace (Z.of_nat k <? Z.of_nat (k + 1) - 1) with false
      by (symmetry; apply Z.ltb_ge; lia).
    repeat split; [exact Htrace|].
    rewrite Hclock. replace (k + 0)%nat with k by lia. lia.
  - destruct (Hfail w) as (e & w' & Hfn & Hclock & Htrace).
    destruct (IH (S k) (Bot.slept (d * 2 ^ Z.of_nat k) w'))
      as (e' & w0 & w'' & Hrest & Hlast & Htrace' & Hclock').
    exists e', w0, w''. rewrite py_range_seq. cbn [Bot.retry_loop]. rewrite Hfn.
    replace (Z.of_nat k <? Z.of_nat (k + S (S m)) - 1) with true
      by (symmetry; apply Z.ltb_lt; lia).
    unfold bind, Bot.sleep.
    replace (S k + S m)%nat with (k + S (S m))%nat in Hrest by lia.
    split; [exact Hrest|]. split; [exact Hlast|]. split.
    + rewrite Htrace'. unfold Bot.slept. cbn [Bot.trace]. rewrite Htrace.
      cbn [seq map concat]. now rewrite <- !app_assoc.
    + rewrite Hclock'. unfold Bot.slept. cbn [Bot.clock]. rewrite Hclock.
      assert (0 <= 2 ^ Z.of_nat k) by (apply Z.pow_nonneg; lia).
      replace (Z.max 0 (d * 2 ^ Z.of_nat k)) with (d * 2 ^ Z.of_nat k) by nia.
      replace (Z.of_nat (S k + m)) with (Z.of_nat (k + S m)) by lia.
      replace (Z.of_nat (S k)) with (Z.of_nat k + 1) by lia.
      rewrite Z.pow_add_r by lia. lia.
Qed.

(** X2. Take an operation that fails on every call, recording the one call
    [ev] and leaving the clock alone. For any positive number of attempts
    the wrapper calls it exactly [retries] times, sleeps [delay * 2^i]
    between attempt [i] and the next (counting from 0: [delay], twice
    [delay], four times [delay], ...), sleeps no more after the last
    attempt and raises the error of that last attempt, as the operation left
    the world. The waits add up to [delay * (2^(retries-1) - 1)]
    seconds. *)
Theorem retry_request_total_backoff {A : Type} (fn : M Bot.World A) (ev : Event)
    (retries delay : Z) (w : Bot.World) :
  1 <= retries ->
  0 <= delay ->
  (forall w0, exists e w',
      fn w0 = (Raise e, w') /\ Bot.clock w' = Bot.clock w0
      /\ Bot.trace w' = (Bot.trace w0 ++ [ev])%list) ->
  exists e w0 w',
    Bot.retry_request fn retries delay w = (Raise e, w')
    /\ fn w0 = (Raise e, w')
    /\ Bot.trace w'
       = (Bot.trace w
          ++ concat (map (fun i => [ev; EvSleep (delay * 2 ^ i)]) (py_range (retries - 1)))
          ++ [ev])%list
    /\ Bot.clock w' = Bot.clock w + delay * (2 ^ (retries - 1) - 1).
Proof.
  intros Hn Hd Hfail. unfold Bot.retry_request, py_range.
  destruct (Z.to_nat retries) as [|m] eqn:Em; [lia|].
  destruct (retry_loop_exhausted fn ev delay m Hd Hfail 0 w)
    as (e & w0 & w' & Hrun & Hlast & Htrace & Hclock).
  exists e, w0, w'.
  replace (Z.of_nat (0 + S m)) with retries in Hrun by lia.
  split; [exact Hrun|]. split; [exact Hlast|]. split.
  - rewrite Htrace. now replace (Z.to_nat (retries - 1)) with m by lia.
  - rewrite Hclock. replace (Z.of_nat (0 + m)) with (retries - 1) by lia. reflexivity.
Qed.

Lemma retry_request_total_backoff_witness :
  exists e w0 w',
    Bot.retry_request Scenario.always_fails 4 1
      {| Bot.redis := ∅; Bot.clock := 0; Bot.trace := [] |} = (Raise e, w')
    /\ Scenario.always_fails w0 = (Raise e, w')
    /\ Bot.trace w'
       = [ EvGetSlots 11 7; EvSleep 1; EvGetSlots 11 7; EvSleep 2;
           EvGetSlots 11 7; EvSleep 4; EvGetSlots 11 7 ]
    /\ Bot.clock w' = 7.
Proof.
  apply (retry_request_total_backoff Scenario.always_fails (EvGetSlots 11 7) 4 1
           {| Bot.redis := ∅; Bot.clock := 0; Bot.trace := [] |}).
  - lia.
  - lia.
  - intros w0. exists (ClientError 500), (Bot.log (EvGetSlots 11 7) w0).
    repeat split; reflexivity.
Defined.

(* ===================================================================== *)
(** * Further properties of the asynchronous handler                      *)
(* ===================================================================== *)

(** X3. The [End] event answers [cleared] without calling any outside
    service: the three keys of the call (stage, intent, slots) are gone
    afterwards, every other key keeps its value, and a second [End] for the
    same call changes nothing more. *)
Theorem webhook_end_clears (env : Bot.Env) (data : Bot.Request) (w : Bot.World) :
  Bot.event data = Some "End" ->
  fst (Bot.webhook env data w) = Ok Bot.Cleared
  /\ Bot.trace (snd (Bot.webhook env data w)) = Bot.trace w
  /\ (forall suffix, suffix ∈ ["stage"; "intent"; "slots"] ->
        Bot.redis_lookup (Bot.call_key (Bot.call_id data) suffix)
          (snd (Bot.webhook env data w)) = None)
  /\ (forall key,
        (forall suffix, suffix ∈ ["stage"; "intent"; "slots"] ->
                        key <> Bot.call_key (Bot.call_id data) suffix) ->
        Bot.redis (snd (Bot.webhook env data w)) !! key = Bot.redis w !! key)
  /\ Bot.webhook env data (snd (Bot.webhook env data w))
     = (Ok Bot.Cleared, snd (Bot.webhook env data w)).
Proof.
  intros Hev.
  assert (H : Bot.webhook env data w
              = (Ok Bot.Cleared,
                 {| Bot.redis := delete (Bot.call_key (Bot.call_id data) "slots")
                                   (delete (Bot.call_key (Bot.call_id data) "intent")
                                      (delete (Bot.call_key (Bot.call_id data) "stage")
                                         (Bot.redis w)));
                    Bot.clock := Bot.clock w; Bot.trace := Bot.trace w |})).
  { unfold Bot.webhook. rewrite Hev. rewrite bool_decide_eq_true_2 by reflexivity.
    reflexivity. }
  rewrite H. cbn [fst snd Bot.trace Bot.redis].
  repeat split.
  - intros suffix Hin. unfold Bot.redis_lookup. cbn [Bot.redis].
    rewrite !lookup_delete.
    repeat (apply elem_of_cons in Hin as [->|Hin]);
      [| | |now apply elem_of_nil in Hin];
      repeat case_decide; try reflexivity; congruence.
  - intros key Hkey.
    rewrite !lookup_delete_ne; [reflexivity| | |].
    + intros Heq. apply (Hkey "stage"); [set_solver | now symmetry].
    + intros Heq. apply (Hkey "intent"); [set_solver | now symmetry].
    + intros Heq. apply (Hkey "slots"); [set_solver | now symmetry].
  - unfold Bot.webhook. rewrite Hev. rewrite bool_decide_eq_true_2 by reflexivity.
    unfold bind, Bot.redis_delete, ret. cbn [Bot.redis Bot.clock Bot.trace].
    f_equal. f_equal.
    apply map_eq. intros key. rewrite !lookup_delete.
    repeat case_decide; reflexivity.
Qed.

Lemma webhook_end_clears_witness :
  fst (Bot.webhook Scenario.show_slots_env Scenario.hangup
         (Scenario.cached_world Scenario.three_slots)) = Ok Bot.Cleared.
Proof.
  apply (webhook_end_clears Scenario.show_slots_env Scenario.hangup
           (Scenario.cached_world Scenario.three_slots)).
  reflexivity.
Defined.

(** X4. When recognition returns an empty text the handler speaks the fixed
    request to repeat: the language model is not asked, the scheduling
    provider is not called and Redis is left as it was. *)
Theorem webhook_silence_asks_again (env : Bot.Env) (data : Bot.Request)
    (w w1 w2 : Bot.World) (url audio : string) :
  Bot.event data = Some "SpeechCaptured" ->
  Bot.recording_url data = Some url ->
  url <> "" ->
  Bot.call (EvDownload url) (fun w0 => Bot.http_get env w0 url) w = (Ok audio, w1) ->
  Bot.yandex_stt env audio w1 = (Ok "", w2) ->
  Bot.webhook env data w = Bot.spoken env (JStr Bot.clarify_phrase) w2
  /\ Bot.trace (snd (Bot.webhook env data w))
     = (Bot.trace w ++ [EvDownload url; EvSTT audio; EvTTS (JStr Bot.clarify_phrase)])%list
  /\ Bot.redis (snd (Bot.webhook env data w)) = Bot.redis w.
Proof.
  intros Hev Hurl Hne Hget Hstt.
  assert (H : Bot.webhook env data w = Bot.spoken env (JStr Bot.clarify_phrase) w2).
  { unfold Bot.webhook. rewrite Hev, Hurl.
    rewrite bool_decide_eq_false_2 by discriminate.
    rewrite bool_decide_eq_true_2 by reflexivity.
    rewrite (eqb_false_of_ne _ _ Hne). cbn [negb andb].
    rewrite (bind_ok _ _ _ _ _ Hget), (bind_ok _ _ _ _ _ Hstt).
    cbn [String.eqb]. apply speak_spoken. }
  rewrite H. unfold Bot.call in Hget. unfold Bot.yandex_stt, Bot.call in Hstt.
  inversion Hget; subst w1. inversion Hstt; subst w2.
  repeat split. cbn. now rewrite <- !app_assoc.
Qed.

Lemma webhook_silence_asks_again_witness :
  Bot.webhook (Scenario.bot_env "" "-" [] Scenario.provider_down Scenario.accepted)
    Scenario.speech (Scenario.bot_world None)
  = Bot.spoken (Scenario.bot_env "" "-" [] Scenario.provider_down Scenario.accepted)
      (JStr Bot.clarify_phrase)
      (Bot.log (EvSTT "mp3")
         (Bot.log (EvDownload Scenario.recording) (Scenario.bot_world None))).
Proof.
  refine (proj1 (webhook_silence_asks_again
    (Scenario.bot_env "" "-" [] Scenario.provider_down Scenario.accepted)
    Scenario.speech (Scenario.bot_world None) _ _ Scenario.recording "mp3"
    _ _ _ _ _)).
  - reflexivity.
  - reflexivity.
  - discriminate.
  - reflexivity.
  - reflexivity.
Defined.

(** X5. A request that is neither a call end nor a captured utterance with
    a recording is answered [ok] and has no effect at all: nothing is
    downloaded, asked or stored. *)
Theorem webhook_ignores_other_requests (env : Bot.Env) (data : Bot.Request)
    (w : Bot.World) :
  Bot.event data <> Some "End" ->
  Bot.event data <> Some "SpeechCaptured"
  \/ Bot.recording_url data = None
  \/ Bot.recording_url data = Some "" ->
  Bot.webhook env data w = (Ok Bot.StatusOk, w).
Proof.
  intros Hend Hcase. unfold Bot.webhook.
  rewrite bool_decide_eq_false_2 by exact Hend.
  destruct Hcase as [Hev|[Hurl|Hurl]].
  - rewrite (bool_decide_eq_false_2 _ Hev). now destruct (Bot.recording_url data).
  - now rewrite Hurl.
  - rewrite Hurl. cbn [String.eqb negb]. now rewrite andb_false_r.
Qed.

Lemma webhook_ignores_other_requests_witness :
  Bot.webhook Scenario.show_slots_env Scenario.ringing (Scenario.bot_world None)
  = (Ok Bot.StatusOk, Scenario.bot_world None).
Proof.
  apply (webhook_ignores_other_requests Scenario.show_slots_env Scenario.ringing
           (Scenario.bot_world None)).
  - discriminate.
  - left. discriminate.
Defined.

(** X6. The [goodbye] directive is answered with the fixed farewell,
    whatever text the model sent with it; the handler does not clear the
    call's keys (only the [End] event does) and calls nothing but speech
    synthesis. *)
Theorem goodbye_says_farewell (env : Bot.Env) (data : Bot.Request)
    (w w3 : Bot.World) (d : json) :
  Bot.resolves env data w d w3 ->
  py_get d "act" (JStr "say") = Ok (JStr "goodbye") ->
  Bot.webhook env data w = Bot.spoken env (JStr Bot.goodbye_phrase) w3
  /\ Bot.redis (snd (Bot.webhook env data w)) = Bot.redis w3.
Proof.
  intros Hres Hact.
  destruct (directive_fields _ _ Hact) as (ms & -> & Htext).
  assert (H : Bot.webhook env data w = Bot.spoken env (JStr Bot.goodbye_phrase) w3).
  { rewrite (webhook_resolved _ _ _ _ _ Hres).
    unfold bind at 1. unfold Bot.handle_actions.
    unfold bind at 1. unfold lift at 1. rewrite Hact.
    unfold bind at 1. unfold lift at 1. rewrite Htext.
    cbn [String.eqb Ascii.eqb Bool.eqb py_startswith String.prefix].
    unfold ret at 1. apply speak_spoken. }
  split; [exact H|]. now rewrite H.
Qed.

Lemma goodbye_says_farewell_witness :
  Bot.webhook (Scenario.book_env "goodbye" Scenario.three_slots Scenario.accepted)
    Scenario.speech (Scenario.cached_world Scenario.three_slots)
  = Bot.spoken (Scenario.book_env "goodbye" Scenario.three_slots Scenario.accepted)
      (JStr Bot.goodbye_phrase)
      (Bot.log (EvChat [("system", "prompt"); ("user", "запишите меня")])
         (Bot.log (EvSTT "mp3")
            (Bot.log (EvDownload Scenario.recording)
               (Scenario.cached_world Scenario.three_slots)))).
Proof.
  refine (proj1 (goodbye_says_farewell
    (Scenario.book_env "goodbye" Scenario.three_slots Scenario.accepted)
    Scenario.speech (Scenario.cached_world Scenario.three_slots) _ _ _ _)).
  - split; [reflexivity|].
    do 5 eexists. repeat split; try reflexivity; discriminate.
  - reflexivity.
Defined.

(** A first attempt that succeeds ends the wrapper at once. *)
Lemma retry_request_first {A : Type} (fn : M Bot.World A) (retries delay : Z)
    (w w' : Bot.World) (a : A) :
  1 <= retries ->
  fn w = (Ok a, w') ->
  Bot.retry_request fn retries delay w = (Ok (Some a), w').
Proof.
  intros Hn Hfn. unfold Bot.retry_request, py_range.
  destruct (Z.to_nat retries) as [|m] eqn:Em; [lia|].
  rewrite py_range_seq. cbn [Bot.retry_loop]. now rewrite Hfn.
Qed.

Section BotSlots.

Context (env : Bot.Env).

Lemma get_slots_first (sid stf : Z) (times : list json) (w : Bot.World) :
  Bot.book_times env w sid stf = Ok times ->
  Bot.get_slots env sid stf w = (Ok (Some (take 3 times)), Bot.log (EvGetSlots sid stf) w).
Proof.
  intros H. unfold Bot.get_slots. apply retry_request_first; [lia|].
  unfold Bot.get_slots_do, Bot.call, bind, ret. cbv beta. now rewrite H.
Qed.

(** The [show_slots] loop when the provider answers every query at once
    with [times service staff]: the slots collected are the first three
    of each answer, in the order of the queries. *)
Lemma collect_answered (times : Z -> Z -> list json)
    (pairs : list (string * string)) (parsed : list (Z * Z)) :
  (forall w sid stf, Bot.book_times env w sid stf = Ok (times sid stf)) ->
  Forall2 (fun p q => py_int (fst p) = Some (fst q) /\ py_int (snd p) = Some (snd q))
    pairs parsed ->
  forall (acc : list json) (w : Bot.World),
    foldM (Bot.query_pair env) acc pairs w
    = (Ok (acc ++ concat (map (fun q => take 3 (times (fst q) (snd q))) parsed))%list,
       {| Bot.redis := Bot.redis w; Bot.clock := Bot.clock w;
          Bot.trace := (Bot.trace w
                        ++ map (fun q => EvGetSlots (fst q) (snd q)) parsed)%list |}).
Proof.
  intros Hans Hparse. induction Hparse as [|p q pairs parsed [Hs Ht] _ IH]; intros acc w.
  - cbn. rewrite !app_nil_r. now destruct w.
  - cbn [foldM map concat].
    assert (Hq : Bot.query_pair env acc p w
                 = (Ok (acc ++ take 3 (times (fst q) (snd q)))%list,
                    Bot.log (EvGetSlots (fst q) (snd q)) w)).
    { unfold Bot.query_pair, Bot.to_int. rewrite Hs, Ht.
      unfold bind at 1. unfold lift at 1. unfold bind at 1. unfold lift at 1.
      rewrite (bind_ok _ _ _ _ _ (get_slots_first (fst q) (snd q) _ w (Hans w _ _))).
      reflexivity. }
    rewrite (bind_ok _ _ _ _ _ Hq). rewrite IH.
    unfold Bot.log. cbn [Bot.redis Bot.clock Bot.trace].
    now rewrite <- !app_assoc.
Qed.

End BotSlots.

(** X7. When the provider answers every slot query at once, [show_slots]
    asks it once per configured service/staff pair, in the order of the
    double loop, keeps the first three times of each answer, caches the
    whole list under the call's slot key and replies with the phrase
    followed by the labels of the first three slots of the list. The cache
    can be read back for 3600 seconds and is gone from then on. *)
Theorem show_slots_answered (env : Bot.Env) (data : Bot.Request)
    (w w3 : Bot.World) (d : json) (times : Z -> Z -> list json)
    (parsed : list (Z * Z)) (labels : string) :
  Bot.resolves env data w d w3 ->
  py_get d "act" (JStr "say") = Ok (JStr "show_slots") ->
  (forall w0 sid stf, Bot.book_times env w0 sid stf = Ok (times sid stf)) ->
  Forall2 (fun p q => py_int (fst p) = Some (fst q) /\ py_int (snd p) = Some (snd q))
    (list_prod (Bot.YCLIENTS_SERVICE_IDS env) (Bot.YCLIENTS_STAFF_IDS env)) parsed ->
  Bot.join_labels
    (take 3 (concat (map (fun q => take 3 (times (fst q) (snd q))) parsed)))
  = Ok labels ->
  fst (Bot.webhook env data w)
  = match Bot.tts_synthesize env
            {| Bot.redis :=
                 <[Bot.call_key (Bot.call_id data) "slots" :=
                     (Bot.json_dumps env
                        (JArr (concat (map (fun q => take 3 (times (fst q) (snd q)))
                                         parsed))),
                      Bot.clock w3 + 3600)]> (Bot.redis w3);
               Bot.clock := Bot.clock w3;
               Bot.trace := (Bot.trace w3
                             ++ map (fun q => EvGetSlots (fst q) (snd q)) parsed)%list |}
            (JStr (Bot.slots_phrase +:+ labels)) with
    | Ok playback_url =>
        Ok (Bot.Spoken playback_url (JStr (Bot.slots_phrase +:+ labels)))
    | Raise e => Raise e
    end
  /\ Bot.trace (snd (Bot.webhook env data w))
     = (Bot.trace w3 ++ map (fun q => EvGetSlots (fst q) (snd q)) parsed
        ++ [EvTTS (JStr (Bot.slots_phrase +:+ labels))])%list
  /\ (forall seconds, 0 <= seconds ->
        Bot.redis_lookup (Bot.call_key (Bot.call_id data) "slots")
          (Bot.elapse seconds (snd (Bot.webhook env data w)))
        = if seconds <? 3600
          then Some (Bot.json_dumps env
                       (JArr (concat (map (fun q => take 3 (times (fst q) (snd q)))
                                        parsed))))
          else None).
Proof.
  intros Hres Hact Hans Hparse Hlabels.
  destruct (directive_fields _ _ Hact) as (ms & -> & Htext).
  set (slots_all := concat (map (fun q => take 3 (times (fst q) (snd q))) parsed)) in *.
  assert (H : Bot.webhook env data w
              = Bot.spoken env (JStr (Bot.slots_phrase +:+ labels))
                  {| Bot.redis :=
                       <[Bot.call_key (Bot.call_id data) "slots" :=
                           (Bot.json_dumps env (JArr slots_all), Bot.clock w3 + 3600)]>
                         (Bot.redis w3);
                     Bot.clock := Bot.clock w3;
                     Bot.trace := (Bot.trace w3
                                   ++ map (fun q => EvGetSlots (fst q) (snd q)) parsed)%list
                  |}).
  { rewrite (webhook_resolved _ _ _ _ _ Hres).
    unfold bind at 1. unfold Bot.handle_actions.
    unfold bind at 1. unfold lift at 1. rewrite Hact.
    unfold bind at 1. unfold lift at 1. rewrite Htext.
    cbn [String.eqb Ascii.eqb Bool.eqb]. unfold Bot.show_slots.
    rewrite (bind_ok _ _ _ _ _ (collect_answered env times _ parsed Hans Hparse [] w3)).
    cbn [app]. fold slots_all. unfold bind at 1. unfold Bot.redis_set at 1.
    cbn [Bot.redis Bot.clock Bot.trace].
    unfold bind at 1. unfold lift at 1. rewrite Hlabels. unfold ret at 1.
    apply speak_spoken. }
  rewrite H. unfold Bot.spoken, Bot.log.
  cbn [fst snd Bot.redis Bot.clock Bot.trace].
  split; [reflexivity|]. split.
  - now rewrite <- app_assoc.
  - intros seconds Hs. unfold Bot.redis_lookup, Bot.elapse.
    cbn [Bot.redis Bot.clock]. rewrite lookup_insert_eq.
    destruct (Z.ltb_spec seconds 3600) as [Hlt|Hge].
    + replace (Bot.clock w3 + seconds <? Bot.clock w3 + 3600) with true
        by (symmetry; apply Z.ltb_lt; lia).
      reflexivity.
    + replace (Bot.clock w3 + seconds <? Bot.clock w3 + 3600) with false
        by (symmetry; apply Z.ltb_ge; lia).
      reflexivity.
Qed.

Lemma show_slots_answered_witness :
  fst (Bot.webhook (Scenario.offering_env Scenario.four_slots) Scenario.speech
         (Scenario.bot_world None))
  = Ok (Bot.Spoken Scenario.playback (JStr (Bot.slots_phrase +:+ "10:00, время, 11:00"))).
Proof.
  refine (proj1 (show_slots_answered (Scenario.offering_env Scenario.four_slots)
                   Scenario.speech (Scenario.bot_world None) _ _
                   (fun _ _ => map Scenario.obj_json Scenario.four_slots)
                   [(11, 7); (12, 7)] "10:00, время, 11:00" _ _ _ _ _)).
  - split; [reflexivity|].
    do 5 eexists. repeat split; try reflexivity; discriminate.
  - reflexivity.
  - reflexivity.
  - repeat constructor.
  - reflexivity.
Defined.

(** X8. With no service id or no staff id configured (the lists are empty
    when the environment variables are unset), [show_slots] asks the
    provider nothing, caches the empty list and replies with the bare
    phrase. *)
Theorem show_slots_nothing_configured (env : Bot.Env) (data : Bot.Request)
    (w w3 : Bot.World) (d : json) :
  Bot.resolves env data w d w3 ->
  py_get d "act" (JStr "say") = Ok (JStr "show_slots") ->
  Bot.YCLIENTS_SERVICE_IDS env = [] \/ Bot.YCLIENTS_STAFF_IDS env = [] ->
  Bot.webhook env data w
  = Bot.spoken env (JStr Bot.slots_phrase)
      (snd (Bot.redis_set (Bot.call_key (Bot.call_id data) "slots")
              (Bot.json_dumps env (JArr [])) 3600 w3)).
Proof.
  intros Hres Hact Hcfg.
  destruct (directive_fields _ _ Hact) as (ms & -> & Htext).
  assert (Hpairs : list_prod (Bot.YCLIENTS_SERVICE_IDS env) (Bot.YCLIENTS_STAFF_IDS env)
                   = []).
  { destruct Hcfg as [-> | ->]; [reflexivity|].
    induction (Bot.YCLIENTS_SERVICE_IDS env) as [|x l IH]; [reflexivity | exact IH]. }
  rewrite (webhook_resolved _ _ _ _ _ Hres).
  unfold bind at 1. unfold Bot.handle_actions.
  unfold bind at 1. unfold lift at 1. rewrite Hact.
  unfold bind at 1. unfold lift at 1. rewrite Htext.
  cbn [String.eqb Ascii.eqb Bool.eqb]. unfold Bot.show_slots. rewrite Hpairs.
  cbn [foldM]. unfold bind at 1. unfold ret at 1.
  unfold bind at 1. unfold bind at 1. unfold lift at 1.
  cbn [take Bot.join_labels Bot.mapR String.concat]. unfold ret at 1.
  change (Bot.slots_phrase +:+ "") with Bot.slots_phrase.
  apply speak_spoken.
Qed.

Lemma show_slots_nothing_configured_witness :
  Bot.webhook (Scenario.without_ids Scenario.show_slots_env) Scenario.speech
    (Scenario.bot_world None)
  = Bot.spoken (Scenario.without_ids Scenario.show_slots_env) (JStr Bot.slots_phrase)
      (snd (Bot.redis_set (Bot.call_key (Some Scenario.the_call) "slots") "[]" 3600
              (Bot.log (EvChat [("system", "prompt"); ("user", "запишите меня")])
                 (Bot.log (EvSTT "mp3")
                    (Bot.log (EvDownload Scenario.recording)
                       (Scenario.bot_world None)))))).
Proof.
  refine (show_slots_nothing_configured (Scenario.without_ids Scenario.show_slots_env)
            Scenario.speech (Scenario.bot_world None) _ _ _ _ _).
  - split; [reflexivity|].
    do 5 eexists. repeat split; try reflexivity; discriminate.
  - reflexivity.
  - left. reflexivity.
Defined.

(** X9. The labels of the reply: a slot contributes its [time] member, and
    the word for "time" when it has none; the labels are joined with a
    comma and a blank in the order of the slots. *)
Theorem join_labels_defaults (slots : list json) (labels : list string) :
  Forall2 (fun s l => exists ms, s = JObj ms
                                 /\ default (JStr Bot.default_label) (assoc "time" ms)
                                    = JStr l) slots labels ->
  Bot.join_labels slots = Ok (String.concat ", " labels).
Proof.
  intros H. unfold Bot.join_labels.
  assert (Hget : Bot.mapR (fun s => py_get s "time" (JStr Bot.default_label)) slots
                 = Ok (map JStr labels)).
  { induction H as [|s l slots labels (ms & -> & Hl) _ IH]; [reflexivity|].
    cbn [Bot.mapR py_get map]. now rewrite Hl, IH. }
  rewrite Hget.
  assert (Hstr : Bot.mapR Bot.as_str (map JStr labels) = Ok labels).
  { clear. induction labels as [|l labels IH]; [reflexivity|].
    cbn [map Bot.mapR Bot.as_str]. now rewrite IH. }
  now rewrite Hstr.
Qed.

Lemma join_labels_defaults_witness :
  Bot.join_labels [JObj [("time", JStr "10:00")]; JObj [("seance_length", JInt 3600)]]
  = Ok (String.concat ", " ["10:00"; Bot.default_label]).
Proof.
  apply (join_labels_defaults
           [JObj [("time", JStr "10:00")]; JObj [("seance_length", JInt 3600)]]
           ["10:00"; Bot.default_label]).
  repeat constructor; eexists; split; reflexivity.
Defined.

(** X10. A negative index counts from the end of the cached list as long
    as it stays within it; below that the handler ends with [IndexError]
    before any booking request. *)
Theorem book_negative_index (env : Bot.Env) (data : Bot.Request)
    (w w3 : Bot.World) (d t : json) (slots : list json) (a raw : string) (idx : Z) :
  Bot.resolves env data w d w3 ->
  py_get d "act" (JStr "say") = Ok (JStr a) ->
  py_startswith "book" a = true ->
  py_get d "text" (JStr "") = Ok t ->
  Bot.redis_lookup (Bot.call_key (Bot.call_id data) "slots") w3 = Some raw ->
  raw <> "" ->
  Bot.json_loads env raw = Some (JArr slots) ->
  Bot.book_index a = Ok idx ->
  idx < 0 ->
  (- Z.of_nat (length slots) <= idx ->
   exists s, slots !! Z.to_nat (Z.of_nat (length slots) + idx) = Some s
             /\ Bot.choose (JArr slots) idx = Ok s)
  /\ (idx < - Z.of_nat (length slots) ->
      Bot.webhook env data w = (Raise IndexError, w3)).
Proof.
  intros Hres Hact Hbook Htext Hraw Hne Hloads Hidx Hneg.
  assert (Hlt : (idx <? Z.of_nat (length slots)) = true) by (apply Z.ltb_lt; lia).
  assert (Hnn : (0 <=? idx) = false) by (apply Z.leb_gt; lia).
  assert (Hn0 : (idx <? 0) = true) by (apply Z.ltb_lt; lia).
  split.
  - intros Hin.
    destruct (lookup_lt_is_Some_2 slots (Z.to_nat (Z.of_nat (length slots) + idx)))
      as [s Hs]; [lia|].
    exists s. split; [exact Hs|].
    unfold Bot.choose, py_len. rewrite Hlt. unfold py_index, list_index.
    rewrite Hnn. cbn [andb].
    replace (- Z.of_nat (length slots) <=? idx) with true
      by (symmetry; apply Z.leb_le; lia).
    rewrite Hn0. cbn [andb]. now rewrite Hs.
  - intros Hout.
    rewrite (webhook_resolved _ _ _ _ _ Hres).
    unfold bind at 1.
    rewrite (handle_actions_book env _ _ d t a w3 Hact Htext Hbook).
    unfold Bot.book, Bot.redis_get. unfold bind at 1. rewrite Hraw.
    rewrite (eqb_false_of_ne _ _ Hne). unfold bind, lift.
    rewrite Hloads, Hidx. unfold Bot.choose, py_len. rewrite Hlt.
    unfold py_index, list_index. rewrite Hnn. cbn [andb].
    replace (- Z.of_nat (length slots) <=? idx) with false
      by (symmetry; apply Z.leb_gt; lia).
    reflexivity.
Qed.

Lemma book_negative_index_witness :
  Bot.webhook (Scenario.book_env "book(-4)" Scenario.three_slots Scenario.accepted)
    Scenario.speech (Scenario.cached_world Scenario.three_slots)
  = (Raise IndexError,
     Bot.log (EvChat [("system", "prompt"); ("user", "запишите меня")])
       (Bot.log (EvSTT "mp3")
          (Bot.log (EvDownload Scenario.recording)
             (Scenario.cached_world Scenario.three_slots)))).
Proof.
  refine (proj2 (book_negative_index
    (Scenario.book_env "book(-4)" Scenario.three_slots Scenario.accepted)
    Scenario.speech (Scenario.cached_world Scenario.three_slots) _ _
    (JStr "Записываю вас.") (map Scenario.obj_json Scenario.three_slots)
    "book(-4)" (Scenario.arr_text Scenario.three_slots) (-4)
    _ _ _ _ _ _ _ _ _) _).
  - split; [reflexivity|].
    do 5 eexists. repeat split; try reflexivity; discriminate.
  - reflexivity.
  - reflexivity.
  - reflexivity.
  - reflexivity.
  - discriminate.
  - reflexivity.
  - reflexivity.
  - lia.
  - cbn. lia.
Defined.

Lemma book_index_canonical_witness :
  py_startswith "book" ("book(" +:+ "12" +:+ ")") = true
  /\ Bot.book_index ("book(" +:+ "12" +:+ ")") = Ok (dec_value 0 "12").
Proof.
  apply (book_index_canonical "12"); [reflexivity | discriminate].
Defined.

Section BotBooking.

Context (env : Bot.Env).

Lemma create_record_first (req : BookingRequest) (res : json) (w : Bot.World) :
  Bot.records env w req = Ok res ->
  Bot.create_record env req w = (Ok (Some res), Bot.log (EvCreateRecord req) w).
Proof.
  intros H. unfold Bot.create_record. apply retry_request_first; [lia|].
  unfold Bot.create_record_do, Bot.call. now rewrite H.
Qed.

Lemma create_record_exhausted (req : BookingRequest) (w : Bot.World) (e1 e2 e3 : exn) :
  let ev := EvCreateRecord req in
  Bot.records env w req = Raise e1 ->
  Bot.records env (Bot.slept 1 (Bot.log ev w)) req = Raise e2 ->
  Bot.records env (Bot.slept 2 (Bot.log ev (Bot.slept 1 (Bot.log ev w)))) req = Raise e3 ->
  Bot.create_record env req w
  = (Raise e3, Bot.log ev (Bot.slept 2 (Bot.log ev (Bot.slept 1 (Bot.log ev w))))).
Proof.
  intros ev H1 H2 H3. unfold Bot.create_record.
  refine (proj2 (retry_request_third (Bot.create_record_do env req) w _ _ _ e1 e2
                   (Raise e3) _ _ _)).
  - unfold Bot.create_record_do, Bot.call. now rewrite H1.
  - unfold Bot.create_record_do, Bot.call. fold ev. now rewrite H2.
  - unfold Bot.create_record_do, Bot.call. fold ev. now rewrite H3.
Qed.

(** The booking call with both ids configured is the [create_record] call
    for the default request, followed by the choice of the phrase. *)
Lemma submit_booking_configured (caller : string) (cid : option string)
    (sid stf : string) (ss ts : list string) (w : Bot.World) :
  Bot.YCLIENTS_SERVICE_IDS env = sid :: ss ->
  Bot.YCLIENTS_STAFF_IDS env = stf :: ts ->
  Bot.submit_booking env caller cid w
  = (r <- Bot.create_record env (Bot.booking_request caller cid sid stf (Bot.clock w)) ;;
     lift (Bot.booking_reply r)) w.
Proof.
  intros Hs Ht. unfold Bot.submit_booking. rewrite Hs, Ht. reflexivity.
Qed.

End BotBooking.

(** X11. When a [book] directive is accepted (slots are cached and the
    index selects one of them) and the provider answers the first attempt,
    exactly one booking request is sent. It carries the caller id as phone,
    the fixed guest name, the first configured service id and staff id,
    the time of the call plus 3600 seconds and the call id as external
    reference, whatever slot was selected; the reply is the success phrase
    when the answer's [success] member is truthy and the failure phrase
    otherwise. *)
Theorem booking_sends_default_request (env : Bot.Env) (data : Bot.Request)
    (w w3 : Bot.World) (d t s res flag : json) (slots : list json)
    (a raw sid stf : string) (ss ts : list string) (i : nat) :
  Bot.resolves env data w d w3 ->
  py_get d "act" (JStr "say") = Ok (JStr a) ->
  py_startswith "book" a = true ->
  py_get d "text" (JStr "") = Ok t ->
  Bot.redis_lookup (Bot.call_key (Bot.call_id data) "slots") w3 = Some raw ->
  raw <> "" ->
  Bot.json_loads env raw = Some (JArr slots) ->
  Bot.book_index a = Ok (Z.of_nat i) ->
  slots !! i = Some s ->
  Bot.YCLIENTS_SERVICE_IDS env = sid :: ss ->
  Bot.YCLIENTS_STAFF_IDS env = stf :: ts ->
  Bot.records env w3
    {| phone := default "unknown" (Bot.callerid data); fullname := Bot.guest_name;
       service_id := sid; staff_id := stf; ts_unix := Bot.clock w3 + 3600;
       api_id := Bot.call_id data |} = Ok res ->
  py_get res "success" JNull = Ok flag ->
  Bot.webhook env data w
  = Bot.spoken env
      (JStr (if truthy flag then Bot.success_phrase else Bot.failure_phrase))
      (Bot.log
         (EvCreateRecord
            {| phone := default "unknown" (Bot.callerid data); fullname := Bot.guest_name;
               service_id := sid; staff_id := stf; ts_unix := Bot.clock w3 + 3600;
               api_id := Bot.call_id data |}) w3).
Proof.
  intros Hres Hact Hbook Htext Hraw Hne Hloads Hidx Hs Hsid Hstf Hrec Hflag.
  rewrite (booking_ignores_choice env data w w3 d t s slots a raw i
             Hres Hact Hbook Htext Hraw Hne Hloads Hidx Hs).
  rewrite (bind_ok _ _ _ _ _
             (submit_booking_answered env _ _ sid stf ss ts res flag w3 _ Hsid Hstf
                (create_record_first env _ res w3 Hrec) Hflag)).
  apply speak_spoken.
Qed.

Lemma booking_sends_default_request_witness :
  Bot.webhook (Scenario.book_env "book(2)" Scenario.three_slots Scenario.rejected)
    Scenario.speech (Scenario.cached_world Scenario.three_slots)
  = Bot.spoken (Scenario.book_env "book(2)" Scenario.three_slots Scenario.rejected)
      (JStr Bot.failure_phrase)
      (Bot.log
         (EvCreateRecord
            {| phone := Scenario.caller_id; fullname := Bot.guest_name;
               service_id := "11"; staff_id := "7"; ts_unix := 1000 + 3600;
               api_id := Some Scenario.the_call |})
         (Bot.log (EvChat [("system", "prompt"); ("user", "запишите меня")])
            (Bot.log (EvSTT "mp3")
               (Bot.log (EvDownload Scenario.recording)
                  (Scenario.cached_world Scenario.three_slots))))).
Proof.
  refine (booking_sends_default_request
    (Scenario.book_env "book(2)" Scenario.three_slots Scenario.rejected)
    Scenario.speech (Scenario.cached_world Scenario.three_slots) _ _
    (JStr "Записываю вас.") _ (JObj [("success", JBool false)]) (JBool false)
    (map Scenario.obj_json Scenario.three_slots)
    "book(2)" (Scenario.arr_text Scenario.three_slots) "11" "7" ["12"] [] 2
    _ _ _ _ _ _ _ _ _ _ _ _ _).
  - split; [reflexivity|].
    do 5 eexists. repeat split; try reflexivity; discriminate.
  - reflexivity.
  - reflexivity.
  - reflexivity.
  - reflexivity.
  - discriminate.
  - reflexivity.
  - reflexivity.
  - reflexivity.
  - reflexivity.
  - reflexivity.
  - reflexivity.
  - reflexivity.
Defined.

(** X12. When the provider fails on all three attempts of an accepted
    booking, the same request was sent three times, after waits of 1 and 2
    seconds, and the error of the last attempt leaves the handler: nothing
    is spoken. *)
Theorem booking_exhausted_raises (env : Bot.Env) (data : Bot.Request)
    (w w3 : Bot.World) (d t choice slots : json) (a raw sid stf : string)
    (ss ts : list string) (idx : Z) (e1 e2 e3 : exn) :
  Bot.resolves env data w d w3 ->
  py_get d "act" (JStr "say") = Ok (JStr a) ->
  py_startswith "book" a = true ->
  py_get d "text" (JStr "") = Ok t ->
  Bot.redis_lookup (Bot.call_key (Bot.call_id data) "slots") w3 = Some raw ->
  raw <> "" ->
  Bot.json_loads env raw = Some slots ->
  Bot.book_index a = Ok idx ->
  Bot.choose slots idx = Ok choice ->
  Bot.YCLIENTS_SERVICE_IDS env = sid :: ss ->
  Bot.YCLIENTS_STAFF_IDS env = stf :: ts ->
  let req := Bot.booking_request (default "unknown" (Bot.callerid data))
               (Bot.call_id data) sid stf (Bot.clock w3) in
  let ev := EvCreateRecord req in
  Bot.records env w3 req = Raise e1 ->
  Bot.records env (Bot.slept 1 (Bot.log ev w3)) req = Raise e2 ->
  Bot.records env (Bot.slept 2 (Bot.log ev (Bot.slept 1 (Bot.log ev w3)))) req = Raise e3 ->
  Bot.webhook env data w
  = (Raise e3, Bot.log ev (Bot.slept 2 (Bot.log ev (Bot.slept 1 (Bot.log ev w3))))).
Proof.
  intros Hres Hact Hbook Htext Hraw Hne Hloads Hidx Hchoice Hsid Hstf req ev H1 H2 H3.
  rewrite (webhook_resolved _ _ _ _ _ Hres).
  unfold bind at 1.
  rewrite (handle_actions_book env _ _ d t a w3 Hact Htext Hbook).
  rewrite (book_with_choice env _ _ a raw t slots choice idx w3 Hraw Hne Hloads Hidx Hchoice).
  rewrite (submit_booking_configured env _ _ sid stf ss ts w3 Hsid Hstf).
  fold req.
  now rewrite (bind_raise _ _ _ _ _ (create_record_exhausted env req w3 e1 e2 e3 H1 H2 H3)).
Qed.

Lemma booking_exhausted_raises_witness :
  fst (Bot.webhook (Scenario.book_env "book(0)" Scenario.three_slots Scenario.booking_down)
         Scenario.speech (Scenario.cached_world Scenario.three_slots))
  = Raise (ClientError 502).
Proof.
  refine (f_equal fst (booking_exhausted_raises
    (Scenario.book_env "book(0)" Scenario.three_slots Scenario.booking_down)
    Scenario.speech (Scenario.cached_world Scenario.three_slots) _ _
    (JStr "Записываю вас.") _ (Scenario.arr_json Scenario.three_slots)
    "book(0)" (Scenario.arr_text Scenario.three_slots) "11" "7" ["12"] [] 0
    (ClientError 502) (ClientError 502) (ClientError 502)
    _ _ _ _ _ _ _ _ _ _ _ _ _ _)).
  - split; [reflexivity|].
    do 5 eexists. repeat split; try reflexivity; discriminate.
  - reflexivity.
  - reflexivity.
  - reflexivity.
  - reflexivity.
  - discriminate.
  - reflexivity.
  - reflexivity.
  - reflexivity.
  - reflexivity.
  - reflexivity.
  - reflexivity.
  - reflexivity.
  - reflexivity.
Defined.

(** X13. With no service id configured, an accepted [book] directive ends
    the handler with [IndexError] before any booking request is sent. *)
Theorem booking_without_service_id (env : Bot.Env) (data : Bot.Request)
    (w w3 : Bot.World) (d t choice slots : json) (a raw : string) (idx : Z) :
  Bot.resolves env data w d w3 ->
  py_get d "act" (JStr "say") = Ok (JStr a) ->
  py_startswith "book" a = true ->
  py_get d "text" (JStr "") = Ok t ->
  Bot.redis_lookup (Bot.call_key (Bot.call_id data) "slots") w3 = Some raw ->
  raw <> "" ->
  Bot.json_loads env raw = Some slots ->
  Bot.book_index a = Ok idx ->
  Bot.choose slots idx = Ok choice ->
  Bot.YCLIENTS_SERVICE_IDS env = [] ->
  Bot.webhook env data w = (Raise IndexError, w3).
Proof.
  intros Hres Hact Hbook Htext Hraw Hne Hloads Hidx Hchoice Hcfg.
  rewrite (webhook_resolved _ _ _ _ _ Hres).
  unfold bind at 1.
  rewrite (handle_actions_book env _ _ d t a w3 Hact Htext Hbook).
  rewrite (book_with_choice env _ _ a raw t slots choice idx w3 Hraw Hne Hloads Hidx Hchoice).
  unfold Bot.submit_booking. now rewrite Hcfg.
Qed.

Lemma booking_without_service_id_witness :
  Bot.webhook
    (Scenario.without_ids
       (Scenario.book_env "book(1)" Scenario.three_slots Scenario.accepted))
    Scenario.speech (Scenario.cached_world Scenario.three_slots)
  = (Raise IndexError,
     Bot.log (EvChat [("system", "prompt"); ("user", "запишите меня")])
       (Bot.log (EvSTT "mp3")
          (Bot.log (EvDownload Scenario.recording)
             (Scenario.cached_world Scenario.three_slots)))).
Proof.
  refine (booking_without_service_id
    (Scenario.without_ids
       (Scenario.book_env "book(1)" Scenario.three_slots Scenario.accepted))
    Scenario.speech (Scenario.cached_world Scenario.three_slots) _ _
    (JStr "Записываю вас.") _ (Scenario.arr_json Scenario.three_slots)
    "book(1)" (Scenario.arr_text Scenario.three_slots) 1
    _ _ _ _ _ _ _ _ _ _).
  - split; [reflexivity|].
    do 5 eexists. repeat split; try reflexivity; discriminate.
  - reflexivity.
  - reflexivity.
  - reflexivity.
  - reflexivity.
  - discriminate.
  - reflexivity.
  - reflexivity.
  - reflexivity.
  - reflexivity.
Defined.

(* ===================================================================== *)
(** * Further properties of the synchronous handler                       *)
(* ===================================================================== *)

(** X14. The [End] event of the synchronous variant answers [cleared]
    without calling any outside service: the caller's turns and last
    activity are forgotten, every other caller's are kept, and a second
    [End] changes nothing more. *)
Theorem main_end_forgets_caller (env : Main.Env) (data : Main.Request) (w : Main.World) :
  Main.event data = Some "End" ->
  fst (Main.webhook env data w) = Ok Main.Cleared
  /\ Main.trace (snd (Main.webhook env data w)) = Main.trace w
  /\ Main.session_of (default "unknown" (Main.callerid data))
       (snd (Main.webhook env data w)) = []
  /\ Main.LAST_ACTIVITY (snd (Main.webhook env data w))
       !! default "unknown" (Main.callerid data) = None
  /\ (forall other, other <> default "unknown" (Main.callerid data) ->
        Main.SESSIONS (snd (Main.webhook env data w)) !! other = Main.SESSIONS w !! other
        /\ Main.LAST_ACTIVITY (snd (Main.webhook env data w)) !! other
           = Main.LAST_ACTIVITY w !! other)
  /\ Main.webhook env data (snd (Main.webhook env data w))
     = (Ok Main.Cleared, snd (Main.webhook env data w)).
Proof.
  intros Hev.
  assert (H : forall w0, Main.webhook env data w0
              = (Ok Main.Cleared,
                 {| Main.SESSIONS :=
                      delete (default "unknown" (Main.callerid data)) (Main.SESSIONS w0);
                    Main.LAST_ACTIVITY :=
                      delete (default "unknown" (Main.callerid data))
                        (Main.LAST_ACTIVITY w0);
                    Main.clock := Main.clock w0; Main.trace := Main.trace w0 |})).
  { intros w0. unfold Main.webhook. rewrite Hev.
    rewrite bool_decide_eq_true_2 by reflexivity. reflexivity. }
  rewrite !H. cbn [fst snd Main.trace Main.SESSIONS Main.LAST_ACTIVITY Main.clock].
  unfold Main.session_of. cbn [Main.SESSIONS].
  repeat split.
  - now rewrite lookup_delete_eq.
  - now rewrite lookup_delete_eq.
  - now rewrite lookup_delete_ne by congruence.
  - now rewrite lookup_delete_ne by congruence.
  - now rewrite !delete_delete_eq.
Qed.

Lemma main_end_forgets_caller_witness :
  Main.session_of Scenario.caller_id
    (snd (Main.webhook (Scenario.main_env [] "hello" "answer") Scenario.main_hangup
            Scenario.talked_world)) = [].
Proof.
  apply (main_end_forgets_caller (Scenario.main_env [] "hello" "answer")
           Scenario.main_hangup Scenario.talked_world).
  reflexivity.
Defined.

(** X15. The synchronous handler reads the event name only to tell the
    call end: two requests that are not call ends and agree on the caller
    and the recording are handled alike, whatever their event names. *)
Theorem main_webhook_ignores_event_name (env : Main.Env) (data data' : Main.Request)
    (w : Main.World) :
  Main.event data <> Some "End" ->
  Main.event data' <> Some "End" ->
  Main.callerid data = Main.callerid data' ->
  Main.recording_url data = Main.recording_url data' ->
  Main.webhook env data w = Main.webhook env data' w.
Proof.
  intros H1 H2 Hc Hr. unfold Main.webhook.
  rewrite !bool_decide_eq_false_2 by assumption.
  now rewrite Hc, Hr.
Qed.

Lemma main_webhook_ignores_event_name_witness :
  Main.webhook (Scenario.main_env Scenario.price_faq "price?" "-") Scenario.main_speech
    Scenario.main_world
  = Main.webhook (Scenario.main_env Scenario.price_faq "price?" "-")
      Scenario.main_other_event Scenario.main_world.
Proof.
  apply main_webhook_ignores_event_name; try discriminate; reflexivity.
Defined.

(** X16. When recognition returns an empty text the synchronous handler
    speaks the fixed request to repeat: neither the FAQ answer nor the
    language model is used and the session dictionaries are left as they
    were. *)
Theorem main_silence_asks_again (env : Main.Env) (data : Main.Request)
    (w w2 : Main.World) :
  Main.hears env data w "" w2 ->
  Main.webhook env data w = Main.spoken env Main.clarify_phrase w2
  /\ Main.SESSIONS (snd (Main.webhook env data w)) = Main.SESSIONS w
  /\ Main.LAST_ACTIVITY (snd (Main.webhook env data w)) = Main.LAST_ACTIVITY w
  /\ chat_calls (Main.trace (snd (Main.webhook env data w))) = chat_calls (Main.trace w).
Proof.
  intros Hhears.
  destruct (hears_frame env _ _ _ _ Hhears) as (Hs & Hl & _ & Hc).
  assert (H : Main.webhook env data w = Main.spoken env Main.clarify_phrase w2).
  { rewrite (webhook_hears env _ _ _ _ Hhears).
    unfold bind at 1. unfold Main.reply_for. cbn [String.eqb]. unfold ret at 1.
    apply tts_spoken. }
  rewrite H. unfold Main.spoken, Main.log.
  cbn [snd Main.SESSIONS Main.LAST_ACTIVITY Main.trace].
  repeat split; try assumption.
  rewrite chat_calls_app. cbn. now rewrite app_nil_r.
Qed.

Lemma main_silence_asks_again_witness :
  Main.webhook (Scenario.main_env Scenario.price_faq "" "-") Scenario.main_speech
    Scenario.talked_world
  = Main.spoken (Scenario.main_env Scenario.price_faq "" "-") Main.clarify_phrase
      (Main.log (EvSTT "mp3")
         (Main.log (EvDownload Scenario.recording) Scenario.talked_world)).
Proof.
  refine (proj1 (main_silence_asks_again (Scenario.main_env Scenario.price_faq "" "-")
                   Scenario.main_speech Scenario.talked_world _ _)).
  split; [discriminate|].
  do 3 eexists. repeat split; try reflexivity; discriminate.
Defined.

Section MainSessions.

Context (env : Main.Env).

(** Reading the session just written returns it and changes nothing. *)
Lemma read_session_after_update (caller role content : string) (w : Main.World) :
  Main.read_session caller (snd (Main.update_session caller role content w))
  = (Ok (Main.session_of caller w ++ [(role, content)])%list,
     snd (Main.update_session caller role content w)).
Proof.
  unfold Main.read_session, Main.update_session, Main.session_of.
  cbn [snd Main.SESSIONS Main.LAST_ACTIVITY Main.clock Main.trace].
  rewrite lookup_insert_eq. cbn [default]. now rewrite insert_insert_eq.
Qed.

(** The world in which [ask_gpt] calls the model: the user turn is already
    appended. *)
Lemma ask_gpt_run (caller user_text : string) (w : Main.World) :
  Main.ask_gpt env caller user_text w
  = let w1 := snd (Main.update_session caller "user" user_text w) in
    let messages := ("system", Main.PROMPT env)
                    :: (Main.session_of caller w ++ [("user", user_text)])%list in
    match Main.chat_completion env w1 messages with
    | Raise e => (Raise e, Main.log (EvChat messages) w1)
    | Ok answer =>
        (Ok (py_strip answer),
         snd (Main.update_session caller "assistant" answer
                (Main.log (EvChat messages) w1)))
    end.
Proof.
  unfold Main.ask_gpt.
  rewrite (bind_ok _ _ w (snd (Main.update_session caller "user" user_text w)) tt eq_refl).
  rewrite (bind_ok _ _ _ _ _ (read_session_after_update caller "user" user_text w)).
  cbv zeta. unfold bind, Main.call.
  destruct (Main.chat_completion env _ _); reflexivity.
Qed.

End MainSessions.

(** X17. A turn answered by the language model: the model is sent the
    system prompt, the caller's earlier turns and the new user turn, in
    that order; the session then holds the earlier turns followed by the
    user turn and the model's answer as received, while the reply is the
    answer with the whitespace at its ends stripped; the caller's last
    activity is the time of the turn, and no other caller's session is
    touched. *)
Theorem ask_gpt_appends_both_turns (env : Main.Env) (caller user_text answer : string)
    (w : Main.World) :
  (forall w0, Main.chat_completion env w0
                (("system", Main.PROMPT env)
                 :: Main.session_of caller w ++ [("user", user_text)])%list
              = Ok answer) ->
  fst (Main.ask_gpt env caller user_text w) = Ok (py_strip answer)
  /\ Main.session_of caller (snd (Main.ask_gpt env caller user_text w))
     = (Main.session_of caller w ++ [("user", user_text); ("assistant", answer)])%list
  /\ Main.LAST_ACTIVITY (snd (Main.ask_gpt env caller user_text w)) !! caller
     = Some (Main.clock w)
  /\ chat_calls (Main.trace (snd (Main.ask_gpt env caller user_text w)))
     = (chat_calls (Main.trace w)
        ++ [("system", Main.PROMPT env)
            :: Main.session_of caller w ++ [("user", user_text)]])%list
  /\ (forall other, other <> caller ->
        Main.SESSIONS (snd (Main.ask_gpt env caller user_text w)) !! other
        = Main.SESSIONS w !! other).
Proof.
  intros Hchat. rewrite ask_gpt_run. cbv zeta. rewrite Hchat.
  unfold Main.update_session, Main.log, Main.session_of.
  cbn [fst snd Main.SESSIONS Main.LAST_ACTIVITY Main.clock Main.trace].
  rewrite !lookup_insert_eq. cbn [default]. unfold id.
  split; [reflexivity|]. split; [now rewrite <- app_assoc|].
  split; [reflexivity|]. split; [now rewrite chat_calls_app|].
  intros other Hne. now rewrite !lookup_insert_ne by congruence.
Qed.

Lemma ask_gpt_appends_both_turns_witness :
  Main.session_of Scenario.caller_id
    (snd (Main.ask_gpt (Scenario.main_env [] "again" " fine ") Scenario.caller_id "again"
            Scenario.talked_world))
  = [("user", "hello"); ("assistant", "answer"); ("user", "again"); ("assistant", " fine ")].
Proof.
  refine (proj1 (proj2 (ask_gpt_appends_both_turns (Scenario.main_env [] "again" " fine ")
                          Scenario.caller_id "again" " fine " Scenario.talked_world _))).
  intros w0. reflexivity.
Defined.

(** X18. When the language model call fails, the error leaves [ask_gpt]
    and the user turn appended before the call stays in the session,
    without an answer after it. *)
Theorem ask_gpt_failure_keeps_user_turn (env : Main.Env) (caller user_text : string)
    (w : Main.World) (e : exn) :
  (forall w0, Main.chat_completion env w0
                (("system", Main.PROMPT env)
                 :: Main.session_of caller w ++ [("user", user_text)])%list
              = Raise e) ->
  fst (Main.ask_gpt env caller user_text w) = Raise e
  /\ Main.session_of caller (snd (Main.ask_gpt env caller user_text w))
     = (Main.session_of caller w ++ [("user", user_text)])%list.
Proof.
  intros Hchat. rewrite ask_gpt_run. cbv zeta. rewrite Hchat.
  unfold Main.update_session, Main.log, Main.session_of.
  cbn [fst snd Main.SESSIONS].
  now rewrite lookup_insert_eq.
Qed.

Lemma ask_gpt_failure_keeps_user_turn_witness :
  Main.session_of Scenario.caller_id
    (snd (Main.ask_gpt (Scenario.model_down_env "again") Scenario.caller_id "again"
            Scenario.talked_world))
  = [("user", "hello"); ("assistant", "answer"); ("user", "again")].
Proof.
  refine (proj2 (ask_gpt_failure_keeps_user_turn (Scenario.model_down_env "again")
                   Scenario.caller_id "again" Scenario.talked_world (ClientError 429) _)).
  intros w0. reflexivity.
Defined.

(* ===================================================================== *)
(** * Further properties of the FAQ matcher                               *)
(* ===================================================================== *)

Section FaqMore.

Context (env : Main.Env).

Lemma first_answer_some (m answer : string) (faq : list (string * string)) :
  Main.first_answer env m faq = Some answer ->
  exists question, In (question, answer) faq /\ Main.str_lower env question = m.
Proof.
  induction faq as [|[q a] faq IH]; [discriminate|].
  cbn [Main.first_answer]. destruct (String.eqb_spec (Main.str_lower env q) m) as [Heq|_].
  - intros [= ->]. exists q. split; [now left | exact Heq].
  - intros H. destruct (IH H) as (q' & Hin & Hq'). exists q'. split; [now right | exact Hq'].
Qed.

Lemma filter_nil_forall {A : Type} (f : A -> bool) (l : list A) :
  List.filter f l = [] <-> (forall x, In x l -> f x = false).
Proof.
  induction l as [|x l IH]; cbn.
  - split; [intros _ y [] | reflexivity].
  - destruct (f x) eqn:Hf.
    + split; [discriminate|]. intros H. specialize (H x (or_introl eq_refl)). congruence.
    + rewrite IH. split.
      * intros H y [<-|Hy]; [exact Hf | now apply H].
      * intros H y Hy. apply H. now right.
Qed.

End FaqMore.

(** X19. The matcher never invents an answer: whatever it returns is the
    answer of an FAQ entry whose lowered question passes the three ratio
    tests against the lowered user text at the cutoff used. *)
Theorem find_faq_answer_from_faq (env : Main.Env) (user_text answer : string) (cutoff : Q) :
  Main.find_faq_answer env user_text cutoff = Ok (Some answer) ->
  exists question,
    In (question, answer) (Main.FAQ env)
    /\ Main.close_enough env cutoff (Main.str_lower env user_text)
         (Main.str_lower env question) = true.
Proof.
  intros Hfind.
  destruct (find_faq_answer_in_range env _ _ _ Hfind) as [H0 H1].
  rewrite (find_faq_answer_unfold env user_text cutoff H0 H1) in Hfind.
  set (word := Main.str_lower env user_text) in *.
  set (questions := map (fun q => Main.str_lower env (fst q)) (Main.FAQ env)) in *.
  destruct (Main.scored env cutoff word questions) as [|x l] eqn:Hsc; [discriminate|].
  assert (Hbest : In (Main.py_max x l) (Main.scored env cutoff word questions)).
  { rewrite Hsc. destruct (py_max_in l x) as [->|H]; [now left | now right]. }
  apply scored_in in Hbest. destruct Hbest as (_ & Hce & _).
  injection Hfind as Hfirst.
  destruct (first_answer_some env _ _ _ Hfirst) as (q & Hin & Hq).
  exists q. split; [exact Hin|]. now rewrite Hq.
Qed.

Lemma find_faq_answer_from_faq_witness :
  exists question,
    In (question, "100 rubles") Scenario.price_faq
    /\ Main.close_enough (Scenario.main_env Scenario.price_faq "PRICE?" "-")
         Main.default_cutoff (Scenario.lower_ascii "PRICE?")
         (Scenario.lower_ascii question) = true.
Proof.
  apply (find_faq_answer_from_faq (Scenario.main_env Scenario.price_faq "PRICE?" "-")
           "PRICE?" "100 rubles" Main.default_cutoff).
  reflexivity.
Defined.

(** X20. Over an FAQ made of entries that each carry a question and an
    answer, both strings, as [FAQ] holds them: a cutoff outside [0, 1]
    makes the matcher raise [ValueError], whichever such entries are
    stored. For a cutoff within [0, 1] the matcher returns none exactly
    when no stored question passes the three ratio tests against the user
    text (both lowered); in particular on an empty FAQ. (The lowered
    questions are built before the cutoff is looked at: an entry without
    [question], which [FAQ] does not represent, raises [KeyError]
    first.) *)
Theorem find_faq_answer_none_iff (env : Main.Env) (user_text : string) (cutoff : Q) :
  (~ (0 <= cutoff /\ cutoff <= 1)%Q ->
   Main.find_faq_answer env user_text cutoff = Raise ValueError)
  /\ ((0 <= cutoff)%Q -> (cutoff <= 1)%Q ->
      (Main.find_faq_answer env user_text cutoff = Ok None
       <-> forall question answer,
             In (question, answer) (Main.FAQ env) ->
             Main.close_enough env cutoff (Main.str_lower env user_text)
               (Main.str_lower env question) = false)).
Proof.
  split.
  - intros Hout. unfold Main.find_faq_answer, Main.get_close_matches.
    destruct (Qle_bool 0 cutoff) eqn:H0; [|reflexivity].
    destruct (Qle_bool cutoff 1) eqn:H1; [|reflexivity].
    exfalso. apply Hout. split; now apply Qle_bool_iff.
  - intros H0 H1. rewrite (find_faq_answer_unfold env user_text cutoff H0 H1).
    set (word := Main.str_lower env user_text).
    set (questions := map (fun q => Main.str_lower env (fst q)) (Main.FAQ env)).
    split.
    + intros Hnone question answer Hin.
      destruct (Main.scored env cutoff word questions) as [|x l] eqn:Hsc.
      * unfold Main.scored in Hsc. apply map_eq_nil in Hsc.
        apply (proj1 (filter_nil_forall _ _) Hsc).
        unfold questions. apply in_map_iff. now exists (question, answer).
      * exfalso.
        assert (Hbest : In (Main.py_max x l) (Main.scored env cutoff word questions)).
        { rewrite Hsc. destruct (py_max_in l x) as [->|H]; [now left | now right]. }
        apply scored_in in Hbest. destruct Hbest as (Hq & _ & _).
        apply (first_answer_found env _ _ Hq). congruence.
    + intros Hall.
      assert (Hsc : Main.scored env cutoff word questions = []).
      { unfold Main.scored.
        replace (List.filter (Main.close_enough env cutoff word) questions) with
          (@nil string); [reflexivity|].
        symmetry. apply filter_nil_forall. intros x Hx.
        unfold questions in Hx. apply in_map_iff in Hx as ([q a] & <- & Hin).
        now apply (Hall q a). }
      now rewrite Hsc.
Qed.

Lemma find_faq_answer_none_iff_witness :
  Main.find_faq_answer (Scenario.main_env Scenario.price_faq "price?" "-") "price?" (3 # 2)
  = Raise ValueError.
Proof.
  apply (find_faq_answer_none_iff (Scenario.main_env Scenario.price_faq "price?" "-")
           "price?" (3 # 2)).
  intros [_ H]. apply H. reflexivity.
Defined.

(* ===================================================================== *)
(** * Properties of the adapter's authorisation                           *)
(* ===================================================================== *)

Section AdapterFacts.

Context (env : Adapter.Env).

Lemma authorize_run (w : Adapter.World) (js data tok : json) :
  Adapter.auth env w = Ok js ->
  py_get js "data" (JObj []) = Ok data ->
  py_get data "user_token" JNull = Ok tok ->
  Adapter.authorize env w
  = (Ok tt, {| Adapter.user_token := tok;
               Adapter.auth_requests := S (Adapter.auth_requests w) |}).
Proof.
  intros Hauth Hdata Htok.
  unfold Adapter.authorize, Adapter.post_auth, Adapter.set_token, bind, lift.
  now rewrite Hauth, Hdata, Htok.
Qed.

End AdapterFacts.

(** X21. The user token is fetched once: when [_headers] is called without
    a token and the provider's answer carries a non-empty one, one
    authorisation request is sent and the headers carry that token; a
    second call sends no request and returns the same headers. *)
Theorem headers_token_cached (env : Adapter.Env) (w : Adapter.World) (js data tok : json) :
  truthy (Adapter.user_token w) = false ->
  Adapter.auth env w = Ok js ->
  py_get js "data" (JObj []) = Ok data ->
  py_get data "user_token" JNull = Ok tok ->
  truthy tok = true ->
  Adapter.headers env w
  = (Ok {| Adapter.bearer := tok; Adapter.user := Adapter.partner_token env |},
     {| Adapter.user_token := tok; Adapter.auth_requests := S (Adapter.auth_requests w) |})
  /\ Adapter.headers env
       {| Adapter.user_token := tok; Adapter.auth_requests := S (Adapter.auth_requests w) |}
     = (Ok {| Adapter.bearer := tok; Adapter.user := Adapter.partner_token env |},
        {| Adapter.user_token := tok;
           Adapter.auth_requests := S (Adapter.auth_requests w) |}).
Proof.
  intros Hnone Hauth Hdata Htok Htruthy. split.
  - unfold Adapter.headers. rewrite Hnone.
    now rewrite (bind_ok _ _ _ _ _ (authorize_run env w js data tok Hauth Hdata Htok)).
  - unfold Adapter.headers. cbn [Adapter.user_token]. now rewrite Htruthy.
Qed.

Lemma headers_token_cached_witness :
  Adapter.headers (Scenario.auth_env Scenario.granted) Adapter.initial
  = (Ok {| Adapter.bearer := JStr "t0k3n"; Adapter.user := Some "partner" |},
     {| Adapter.user_token := JStr "t0k3n"; Adapter.auth_requests := 1 |}).
Proof.
  refine (proj1 (headers_token_cached (Scenario.auth_env Scenario.granted) Adapter.initial
                   Scenario.granted (JObj [("user_token", JStr "t0k3n")]) (JStr "t0k3n")
                   _ _ _ _ _)); reflexivity.
Defined.

(** X22. A refusal is not noticed: when the provider's answer carries no
    token (or an empty one), [_headers] raises nothing and returns headers
    without a usable token, and the next call asks the provider again. *)
Theorem headers_without_token (env : Adapter.Env) (w : Adapter.World) (js data tok : json) :
  truthy (Adapter.user_token w) = false ->
  Adapter.auth env w = Ok js ->
  py_get js "data" (JObj []) = Ok data ->
  py_get data "user_token" JNull = Ok tok ->
  truthy tok = false ->
  Adapter.headers env w
  = (Ok {| Adapter.bearer := tok; Adapter.user := Adapter.partner_token env |},
     {| Adapter.user_token := tok; Adapter.auth_requests := S (Adapter.auth_requests w) |})
  /\ Adapter.auth_requests
       (snd (Adapter.headers env
               {| Adapter.user_token := tok;
                  Adapter.auth_requests := S (Adapter.auth_requests w) |}))
     = S (S (Adapter.auth_requests w)).
Proof.
  intros Hnone Hauth Hdata Htok Hfalsy. split.
  - unfold Adapter.headers. rewrite Hnone.
    now rewrite (bind_ok _ _ _ _ _ (authorize_run env w js data tok Hauth Hdata Htok)).
  - unfold Adapter.headers. cbn [Adapter.user_token]. rewrite Hfalsy.
    unfold Adapter.authorize, Adapter.post_auth, Adapter.set_token,
      Adapter.read_headers, bind, lift.
    cbn [Adapter.auth_requests Adapter.user_token].
    clear Hauth.
    match goal with
    | |- context [Adapter.auth env ?x] => destruct (Adapter.auth env x) as [js'|e]
    end; [|reflexivity].
    destruct (py_get js' "data" (JObj [])) as [data'|e]; [|reflexivity].
    destruct (py_get data' "user_token" JNull); reflexivity.
Qed.

Lemma headers_without_token_witness :
  Adapter.headers (Scenario.auth_env Scenario.tokenless) Adapter.initial
  = (Ok {| Adapter.bearer := JNull; Adapter.user := Some "partner" |},
     {| Adapter.user_token := JNull; Adapter.auth_requests := 1 |}).
Proof.
  refine (proj1 (headers_without_token (Scenario.auth_env Scenario.tokenless)
                   Adapter.initial Scenario.tokenless (JObj []) JNull _ _ _ _ _));
    reflexivity.
Defined.

(** X23. An answer whose [data] member is present but is not an object
    (a refusal with [data] null, for one) makes [authorize] raise
    [AttributeError]: the default of [get] only covers a missing member.
    The request was sent and the token is left as it was. *)
Theorem authorize_data_not_object (env : Adapter.Env) (w : Adapter.World)
    (members : list (string * json)) (data : json) :
  Adapter.auth env w = Ok (JObj members) ->
  assoc "data" members = Some data ->
  (forall ms, data <> JObj ms) ->
  Adapter.authorize env w
  = (Raise AttributeError,
     {| Adapter.user_token := Adapter.user_token w;
        Adapter.auth_requests := S (Adapter.auth_requests w) |}).
Proof.
  intros Hauth Hdata Hobj.
  unfold Adapter.authorize, Adapter.post_auth, bind, lift. rewrite Hauth.
  cbn [py_get]. rewrite Hdata. cbn [default].
  destruct data; try reflexivity. now destruct (Hobj members0).
Qed.

Lemma authorize_data_not_object_witness :
  Adapter.authorize (Scenario.auth_env Scenario.refused) Adapter.initial
  = (Raise AttributeError, {| Adapter.user_token := JNull; Adapter.auth_requests := 1 |}).
Proof.
  refine (authorize_data_not_object (Scenario.auth_env Scenario.refused) Adapter.initial
            [("success", JBool false); ("data", JNull)] JNull _ _ _).
  - reflexivity.
  - reflexivity.
  - intros ms. discriminate.
Defined.
